(** * The Supabase data-access layer of the Robusta sink

    A shallow embedding of [src/robusta/core/sinks/robusta/dal/supabase_dal.py]:
    the record encoders ([to_issue], [to_evidence], [to_service]), the
    persistence operations ([persist_finding], [persist_service],
    [get_active_services]) and the session handling ([sign_in],
    [handle_supabase_error]) of class [SupabaseDal].

    Python values that travel over the wire are JSON values; a Python [dict]
    is an association list in insertion order.  Methods run in a state and
    exception monad over the object ([self]) and the outside world: the
    system clock, the remote store, the authentication client and the log. *)

From Stdlib Require Import ZArith List String Ascii Bool Lia DecimalString.
From Stdlib.Strings Require Import Byte.
Import ListNotations.

Set Warnings "-register-all".
#[local] Open Scope string_scope.
#[local] Open Scope Z_scope.
#[local] Open Scope list_scope.

(** ** JSON values and Python dictionaries *)

Inductive json : Type :=
| JNull
| JBool (b : bool)
| JNum (z : Z)
| JStr (s : string)
| JArr (xs : list json)
| JObj (kvs : list (string * json)).

Definition Dict : Type := list (string * json).

(** [d.get(k)] on a dictionary; [None] when the key is absent. *)
Fixpoint dict_get (k : string) (d : Dict) : option json :=
  match d with
  | [] => None
  | (k', v) :: rest => if String.eqb k' k then Some v else dict_get k rest
  end.

(** [d[k] = v]: the value is replaced in place when the key exists, and the
    pair is appended otherwise. *)
Fixpoint dict_set (k : string) (v : json) (d : Dict) : Dict :=
  match d with
  | [] => [(k, v)]
  | (k', v') :: rest =>
      if String.eqb k' k then (k', v) :: rest else (k', v') :: dict_set k v rest
  end.

(** Python truthiness of a JSON value ([if not x]). *)
Definition truthy (j : json) : bool :=
  match j with
  | JNull => false
  | JBool b => b
  | JNum z => negb (z =? 0)
  | JStr s => negb (String.eqb s "")
  | JArr xs => match xs with [] => false | _ => true end
  | JObj kvs => match kvs with [] => false | _ => true end
  end.

(** Equality of scalar column values, as the [eq] filter of the remote store
    compares them. *)
Definition json_eqb (a b : json) : bool :=
  match a, b with
  | JNull, JNull => true
  | JBool x, JBool y => Bool.eqb x y
  | JNum x, JNum y => x =? y
  | JStr x, JStr y => String.eqb x y
  | _, _ => false
  end.

Definition opt_str (o : option string) : json :=
  match o with
  | Some s => JStr s
  | None => JNull
  end.

(** ** Strings *)

(** [s.rindex(c)] for a one-character needle: the highest index of [c] in
    [s], [None] where Python raises [ValueError]. *)
Fixpoint rindex (c : ascii) (s : string) : option nat :=
  match s with
  | EmptyString => None
  | String a rest =>
      match rindex c rest with
      | Some i => Some (S i)
      | None => if Ascii.eqb a c then Some O else None
      end
  end.

(** [s[n:]], the slice from index [n] on *)
Fixpoint slice_from (n : nat) (s : string) : string :=
  match n, s with
  | O, _ => s
  | S n', EmptyString => EmptyString
  | S n', String _ rest => slice_from n' rest
  end.

(** ** The domain model consumed by the layer

    The classes of [reporting/blocks.py] and [model/services.py] that the
    module imports, with the attributes that the module reads. *)

(** Modelled from the spec: the enumerations of the reporting model
    (severity, source, finding type, subject type), declared outside this
    module.  A member of a Python [Enum] has a symbolic [name] and a
    [value]; the module reads one or the other. *)
Record EnumMember : Type := {
  enum_name : string;
  enum_value : json
}.

Record DiffDetail : Type := {
  formatted_path : string
}.

(** A callback is a reference to a playbook function. *)
Definition Callback : Type := string.

(** Modelled from the spec: "ordered sequence of heterogeneous Block
    variants (markdown, divider, file, header, list, table, diff,
    callback)", each with the attributes that [to_evidence] reads;
    [OtherBlock] stands for an object of any other class, [type_name] being
    its [type(block)]. *)
Inductive Block : Type :=
| MarkdownBlock (text : string)
| DividerBlock
| FileBlock (filename : string) (contents : list byte)
| HeaderBlock (text : string)
| ListBlock (items : list string)
| TableBlock (rows : list (list string)) (headers : list string)
    (column_renderers : Dict)
| KubernetesDiffBlock (diffs : list DiffDetail) (old new : option string)
    (resource_name : string)
    (num_additions num_deletions num_modifications : Z)
| CallbackBlock (choices : list (string * Callback)) (context : Dict)
| OtherBlock (type_name : string).

(** Modelled from the spec: an enrichment, its blocks in order and its
    optional category. *)
Record Enrichment : Type := {
  blocks : list Block;
  category : option EnumMember
}.

Record FindingSubject : Type := {
  subject_name : string;
  subject_type : EnumMember;
  subject_namespace : string
}.

(** Modelled from the spec: "Finding: identity = fingerprint +
    aggregation_key; attributes: severity, source, category, title,
    description, failure flag, subject (name, namespace, subject_type)",
    and its enrichments. *)
Record Finding : Type := {
  title : string;
  aggregation_key : string;
  severity : EnumMember;
  source : EnumMember;
  finding_type : EnumMember;
  failure : bool;
  description : option string;
  subject : FindingSubject;
  fingerprint : string;
  enrichments : list Enrichment
}.

(** Modelled from the spec: the class [ServiceInfo] of [model/services.py],
    which the module imports.  "ServiceInfo: identity = (name, namespace,
    type), derived service_key; attributes: classification, deleted flag".
    The attributes hold the values the object was constructed with; the flag
    is false unless the constructor is given one. *)
Record ServiceInfo : Type := {
  service_name : json;
  service_type : json;
  service_namespace : json;
  classification : json;
  deleted : bool
}.

(** ** Exceptions, log records *)

(** The formatted messages of the module, by template and arguments. *)
Inductive Message : Type :=
| CannotConvertBlock (block : Block)
| FailedPersistFinding (finding : Finding) (data : json)
| FindingAlreadyExists (finding : Finding)
| FailedPersistEnrichment (finding : Finding) (enrichment : Enrichment)
    (data : json)
| FailedPersistService (service : ServiceInfo) (data : json)
| FailedGetServices (data : json)
| SupabaseDalLogin
| FailedSigninOnError
| Text (text : string).
    (* the message of an exception that a library raised *)

Inductive Level : Type := ERROR | INFO.

Definition LogRecord : Type := (Level * Message)%type.

(** Exceptions, all of them instances of Python's [Exception]. *)
Inductive exn : Type :=
| ValueError (msg : string)
| IndexError (msg : string)
| KeyError (key : string)
| TypeError (msg : string)
| AttributeError (msg : string)
| ValidationError (msg : string)
| ConnectionError (msg : string)
| AuthError (msg : string)
| Exception (msg : Message).

(** ** The outside world and the object *)

(** A call on the remote store: [client.rpc(fn, params)],
    [client.table(t).insert(row, upsert=u).execute()] or
    [client.table(t).select(columns).filter(c, op, v)...execute()]. *)
Inductive Request : Type :=
| Rpc (fn : string) (params : Dict)
| Insert (table : string) (row : Dict) (upsert : bool)
| Select (table : string) (columns : list string)
    (filters : list (string * string * json)).

(** The envelope [{"data": ..., "status_code": ...}] of an answered call. *)
Record Response : Type := {
  status_code : Z;
  data : json
}.

(** The world outside the object.  [clock] gives the successive readings of
    the system clock (exact numbers, in the unit of the login rate limit) and
    [ticks] counts the readings taken so far.  [store n req] is what the
    remote store does with the [n]-th call when it is [req]: it answers with
    an envelope or the call raises; [sent] is the trace of the calls made,
    oldest first.  [auth n] is the outcome of the [n]-th login handshake
    ([Some e] when it raises [e]) and [logins] the trace of the handshakes
    made.  [log] is the log, oldest record first. *)
Record World : Type := {
  clock : nat -> Z;
  ticks : nat;
  store : nat -> Request -> exn + Response;
  sent : list Request;
  auth : nat -> option exn;
  logins : list (string * string);
  log : list LogRecord
}.

(** The attributes of a [SupabaseDal] object ([self.client] is the handle on
    the world above). *)
Record SupabaseDal : Type := {
  url : string;
  key : string;
  account_id : string;
  cluster : string;
  email : string;
  password : string;
  sign_in_time : Z;
  target_id : string;
  sink_name : string
}.

Record State : Type := {
  dal : SupabaseDal;
  world : World
}.

Definition with_world (s : State) (w : World) : State :=
  {| dal := dal s; world := w |}.

Definition set_ticks (n : nat) (w : World) : World :=
  {| clock := clock w; ticks := n; store := store w; sent := sent w;
     auth := auth w; logins := logins w; log := log w |}.

Definition set_sent (l : list Request) (w : World) : World :=
  {| clock := clock w; ticks := ticks w; store := store w; sent := l;
     auth := auth w; logins := logins w; log := log w |}.

Definition set_logins (l : list (string * string)) (w : World) : World :=
  {| clock := clock w; ticks := ticks w; store := store w; sent := sent w;
     auth := auth w; logins := l; log := log w |}.

Definition set_log (l : list LogRecord) (w : World) : World :=
  {| clock := clock w; ticks := ticks w; store := store w; sent := sent w;
     auth := auth w; logins := logins w; log := l |}.

Definition set_sign_in_time (t : Z) (d : SupabaseDal) : SupabaseDal :=
  {| url := url d; key := key d; account_id := account_id d;
     cluster := cluster d; email := email d; password := password d;
     sign_in_time := t; target_id := target_id d; sink_name := sink_name d |}.

(** ** The monad of methods: state and exceptions *)

Inductive outcome (A : Type) : Type :=
| Return (a : A)
| Raise (e : exn).

Arguments Return {A} a.
Arguments Raise {A} e.

Definition M (A : Type) : Type := State -> outcome A * State.

Definition ret {A : Type} (a : A) : M A := fun s => (Return a, s).

Definition raise {A : Type} (e : exn) : M A := fun s => (Raise e, s).

Definition bind {A B : Type} (m : M A) (k : A -> M B) : M B :=
  fun s =>
    match m s with
    | (Return a, s') => k a s'
    | (Raise e, s') => (Raise e, s')
    end.

(** [try: m except Exception as e: h e] *)
Definition try_except {A : Type} (m : M A) (h : exn -> M A) : M A :=
  fun s =>
    match m s with
    | (Return a, s') => (Return a, s')
    | (Raise e, s') => h e s'
    end.

Definition lift {A : Type} (r : exn + A) : M A :=
  match r with
  | inl e => raise e
  | inr a => ret a
  end.

Declare Scope dal_scope.
Delimit Scope dal_scope with dal.
Notation "x <- m ;; k" := (bind m (fun x => k))
  (at level 61, m at next level, right associativity) : dal_scope.
Notation "m ;; k" := (bind m (fun _ => k))
  (at level 61, right associativity) : dal_scope.
#[local] Open Scope dal_scope.

(** [for x in xs: body x] *)
Fixpoint for_each {A : Type} (xs : list A) (body : A -> M unit) : M unit :=
  match xs with
  | [] => ret tt
  | x :: rest => body x ;; for_each rest body
  end.

(** [[f x for x in xs]] with an [f] that may raise *)
Fixpoint map_M {A B : Type} (f : A -> M B) (xs : list A) : M (list B) :=
  match xs with
  | [] => ret []
  | x :: rest => y <- f x ;; ys <- map_M f rest ;; ret (y :: ys)
  end.

(** *** Primitive effects *)

(** The reading that the clock gives next, and the state once it is taken. *)
Definition now (s : State) : Z := clock (world s) (ticks (world s)).

Definition tick (s : State) : State :=
  with_world s (set_ticks (S (ticks (world s))) (world s)).

(** The state once records are appended to the log. *)
Definition add_logs (l : list LogRecord) (s : State) : State :=
  with_world s (set_log (log (world s) ++ l) (world s)).

(** What the store does with the next call when it is [req], and the state
    once the call is made. *)
Definition reply (s : State) (req : Request) : exn + Response :=
  store (world s) (List.length (sent (world s))) req.

Definition called (req : Request) (s : State) : State :=
  with_world s (set_sent (sent (world s) ++ [req]) (world s)).

(** The outcome of the next login handshake, and the state once it is made. *)
Definition login_outcome (s : State) : option exn :=
  auth (world s) (List.length (logins (world s))).

Definition logged_in (em pw : string) (s : State) : State :=
  with_world s (set_logins (logins (world s) ++ [(em, pw)]) (world s)).

Definition get_self : M SupabaseDal := fun s => (Return (dal s), s).

(** [time.time()], and the clock behind [datetime.datetime.utcnow()]. *)
Definition time_time : M Z := fun s => (Return (now s), tick s).

(** [logging.error(msg)], [logging.info(msg)] *)
Definition logging (lvl : Level) (msg : Message) : M unit :=
  fun s => (Return tt, add_logs [(lvl, msg)] s).

(** A call on the remote store: the request is recorded, and the store
    answers or the call raises. *)
Definition execute (req : Request) : M Response :=
  fun s =>
    match reply s req with
    | inr res => (Return res, called req s)
    | inl e => (Raise e, called req s)
    end.

(** [self.client.auth.sign_in(email=..., password=...)] *)
Definition auth_sign_in (em pw : string) : M unit :=
  fun s =>
    match login_outcome s with
    | None => (Return tt, logged_in em pw s)
    | Some e => (Raise e, logged_in em pw s)
    end.

Definition modify_self (f : SupabaseDal -> SupabaseDal) : M unit :=
  fun s => (Return tt, {| dal := f (dal s); world := world s |}).

(** *** Python operations on JSON values *)

(** [j[0]] *)
Definition getitem0 (j : json) : exn + json :=
  match j with
  | JArr (x :: _) => inr x
  | JArr [] => inl (IndexError "list index out of range")
  | JStr (String c _) => inr (JStr (String c EmptyString))
  | JStr EmptyString => inl (IndexError "string index out of range")
  | JObj _ => inl (KeyError "0")
  | _ => inl (TypeError "object is not subscriptable")
  end.

(** [j.get(k)]: only dictionaries have the method. *)
Definition py_get (k : string) (j : json) : exn + json :=
  match j with
  | JObj kvs =>
      match dict_get k kvs with
      | Some v => inr v
      | None => inr JNull
      end
  | _ => inl (AttributeError "object has no attribute 'get'")
  end.

(** [j[k]] for a string key *)
Definition getitem (k : string) (j : json) : exn + json :=
  match j with
  | JObj kvs =>
      match dict_get k kvs with
      | Some v => inr v
      | None => inl (KeyError k)
      end
  | JArr _ => inl (TypeError "list indices must be integers or slices, not str")
  | JStr _ => inl (TypeError "string indices must be integers")
  | _ => inl (TypeError "object is not subscriptable")
  end.

Fixpoint chars (s : string) : list json :=
  match s with
  | EmptyString => []
  | String c rest => JStr (String c EmptyString) :: chars rest
  end.

(** [for x in j]: the elements of a list, the keys of a dictionary, the
    characters of a string. *)
Definition py_iter (j : json) : exn + list json :=
  match j with
  | JArr xs => inr xs
  | JObj kvs => inr (map (fun kv => JStr (fst kv)) kvs)
  | JStr s => inr (chars s)
  | _ => inl (TypeError "object is not iterable")
  end.

(** ** What the module imports *)

(** Functions and constants that the module takes from other modules and
    libraries, all of them pure. *)
Class Externals : Type := {
  (** [Transformer.to_github_markdown] *)
  to_github_markdown : string -> string;
  (** [TopServiceResolver.guess_service_key(name, namespace)] *)
  guess_service_key : string -> string -> string;
  (** [str(base64.b64encode(contents))] *)
  b64encode_str : list byte -> string;
  (** [json.dumps] *)
  json_dumps : json -> string;
  (** [PlaybookCallbackRequest.create_for_func(callback, context, text).json()],
      which raises for a callback that it does not accept, such as a
      function that is not a registered playbook action *)
  create_for_func_json : Callback -> string -> string -> exn + string;
  (** [str] *)
  str_of : json -> string;
  (** [datetime.isoformat] of a reading of the UTC clock *)
  isoformat : Z -> string;
  (** [ServiceInfo.get_service_key] *)
  get_service_key : ServiceInfo -> string;
  (** [RobustaClient(url, key)]: the exception that the constructor, which
      the client inherits from the client library, raises for this URL and
      this key, if it raises one; it refuses an empty URL *)
  new_client_error : string -> string -> option exn;
  (** [model.env_vars.SUPABASE_LOGIN_RATE_LIMIT_SEC] *)
  SUPABASE_LOGIN_RATE_LIMIT_SEC : Z;
  (** [model.env_vars.TARGET_ID] *)
  TARGET_ID : string
}.

Definition SERVICES_TABLE : string := "Services".
Definition EVIDENCE_TABLE : string := "Evidence".
Definition ISSUES_TABLE : string := "Issues".

(** ** class SupabaseDal *)

Section Methods.

Context {ext : Externals}.

(** [RobustaClient.rpc(fn, params)]: one POST on the store, answered by the
    envelope of the response. *)
Definition rpc (fn : string) (params : Dict) : M Response :=
  execute (Rpc fn params).

(** [datetime.datetime.utcnow()] *)
Definition utcnow : M Z := time_time.

(** [res.get("status_code") not in [200, 201]] *)
Definition not_in_200_201 (res : Response) : bool :=
  negb ((status_code res =? 200) || (status_code res =? 201)).

Definition sign_in : M unit :=
  self <- get_self ;;
  now <- time_time ;;
  if sign_in_time self + SUPABASE_LOGIN_RATE_LIMIT_SEC <? now then
    logging INFO SupabaseDalLogin ;;
    t <- time_time ;;
    modify_self (set_sign_in_time t) ;;
    self <- get_self ;;
    auth_sign_in (email self) (password self)
  else
    ret tt.

(** The number of conversions ([%s], [%d], ...) of a format string without
    mapping keys; [%%] is a literal percent sign. *)
Fixpoint placeholders (s : string) : nat :=
  match s with
  | EmptyString => O
  | String a rest =>
      if Ascii.eqb a "%"%char then
        match rest with
        | String b rest' =>
            if Ascii.eqb b "%"%char then placeholders rest'
            else S (placeholders rest')
        | EmptyString => 1%nat
        end
      else placeholders rest
  end.

(** [logging.error(template, *args)]: when there are arguments, the handler
    formats [template % args] as it emits the record; when the arguments do
    not fit the conversions of the template the formatting raises inside the
    handler, which reports it on the standard error stream, and no record is
    written.  [msg] is the record of a call whose arguments fit. *)
Definition logging_args (lvl : Level) (template : string) (args : list json)
    (msg : Message) : M unit :=
  match args with
  | [] => logging lvl msg
  | _ :: _ =>
      if Nat.eqb (placeholders template) (List.length args)
      then logging lvl msg
      else ret tt
  end.

(** [logging.error] is given the message ["Failed to signin on error"] and,
    as its one argument, the [None] that [traceback.print_exc()] returns
    once it has printed the traceback on the standard error stream (which
    the model does not keep). *)
Definition handle_supabase_error : M unit :=
  try_except sign_in
    (fun e =>
       logging_args ERROR "Failed to signin on error" [JNull]
         FailedSigninOnError).

(** [self.client = RobustaClient(url, key)] *)
Definition new_client (url key : string) : M unit :=
  match new_client_error url key with
  | Some e => raise e
  | None => ret tt
  end.

(** [SupabaseDal(url, key, account_id, email, password, sink_name,
    cluster_name)] in a world [w].  The constructor builds the client and
    signs in before it sets [target_id] and [sink_name], which [sign_in]
    does not read. *)
Definition __init__ (url key account_id email password sink_name
    cluster_name : string) (w : World) : outcome unit * State :=
  (new_client url key ;; sign_in)
    {| dal := {| url := url; key := key; account_id := account_id;
                 cluster := cluster_name; email := email;
                 password := password; sign_in_time := 0;
                 target_id := TARGET_ID; sink_name := sink_name |};
       world := w |}.

Definition to_issue (finding : Finding) : M Dict :=
  self <- get_self ;;
  now <- utcnow ;;
  ret [ ("name", JStr (aggregation_key finding));
        ("account_id", JStr (account_id self));
        ("priority", JStr (enum_name (severity finding)));
        ("service_key",
          JStr (guess_service_key (subject_name (subject finding))
                  (subject_namespace (subject finding))));
        ("source", enum_value (source finding));
        ("category", enum_value (finding_type finding));
        ("fingerprint", JStr (fingerprint finding));
        ("title", JStr (title finding));
        ("start_date", JStr (isoformat now));
        ("end_date", JNull);
        ("description", opt_str (description finding));
        ("is_failure", JBool (failure finding));
        ("subject_type", enum_value (subject_type (subject finding)));
        ("subject_name", JStr (subject_name (subject finding)));
        ("subject_namespace", JStr (subject_namespace (subject finding)));
        ("subject_cluster", JStr (cluster self)) ].

Definition jstrs (l : list string) : json := JArr (map JStr l).

(** [context = block.context.copy()] with the two assignments that follow
    it. *)
Definition callback_context (self : SupabaseDal) (context0 : Dict) : Dict :=
  let context := dict_set "target_id" (JStr (target_id self)) context0 in
  dict_set "sink_name" (JStr (sink_name self)) context.

(** The loop over [block.choices.items()] that fills [callbacks]; it ends at
    the first callback for which [create_for_func] raises.  [context] is
    [json.dumps(context)]. *)
Fixpoint callbacks_of (context : string) (choices : list (string * Callback))
    : exn + list json :=
  match choices with
  | [] => inr []
  | (text, callback) :: rest =>
      match create_for_func_json callback context text with
      | inl e => inl e
      | inr token =>
          match callbacks_of context rest with
          | inl e => inl e
          | inr callbacks =>
              inr (JObj [ ("text", JStr text); ("callback", JStr token) ]
                     :: callbacks)
          end
      end
  end.

(** One round of the loop of [to_evidence] over the blocks: the entry that
    the round appends to [structured_data], or [None] when the round ends in
    [continue]. *)
Definition evidence_entry (self : SupabaseDal) (block : Block)
    : M (option json) :=
  match block with
  | MarkdownBlock text =>
      if String.eqb text "" then ret None
      else ret (Some (JObj [ ("type", JStr "markdown");
                             ("data", JStr (to_github_markdown text)) ]))
  | DividerBlock => ret (Some (JObj [ ("type", JStr "divider") ]))
  | FileBlock filename contents =>
      match rindex "."%char filename with
      | None => raise (ValueError "substring not found")
      | Some last_dot_idx =>
          ret (Some (JObj [ ("type",
                              JStr (slice_from (S last_dot_idx) filename));
                            ("data", JStr (b64encode_str contents)) ]))
      end
  | HeaderBlock text =>
      ret (Some (JObj [ ("type", JStr "header"); ("data", JStr text) ]))
  | ListBlock items =>
      ret (Some (JObj [ ("type", JStr "list"); ("data", jstrs items) ]))
  | TableBlock rows headers column_renderers =>
      ret (Some (JObj [ ("type", JStr "table");
                        ("data",
                          JObj [ ("headers", jstrs headers);
                                 ("rows", JArr (map jstrs rows));
                                 ("column_renderers", JObj column_renderers) ])
                      ]))
  | KubernetesDiffBlock diffs old new resource_name num_additions
      num_deletions num_modifications =>
      ret (Some (JObj [ ("type", JStr "diff");
                        ("data",
                          JObj [ ("old", opt_str old);
                                 ("new", opt_str new);
                                 ("resource_name", JStr resource_name);
                                 ("num_additions", JNum num_additions);
                                 ("num_deletions", JNum num_deletions);
                                 ("num_modifications", JNum num_modifications);
                                 ("updated_paths",
                                   jstrs (map formatted_path diffs)) ]) ]))
  | CallbackBlock choices context0 =>
      let context := callback_context self context0 in
      callbacks <- lift (callbacks_of (json_dumps (JObj context)) choices) ;;
      ret (Some (JObj [ ("type", JStr "callbacks");
                        ("data", JArr callbacks) ]))
  | OtherBlock _ =>
      logging ERROR (CannotConvertBlock block) ;;
      ret None (* no reason to crash the entire report *)
  end.

(** The loop of [to_evidence], from the value of [structured_data] it
    starts with. *)
Fixpoint evidence_loop (self : SupabaseDal) (bs : list Block)
    (structured_data : list json) : M (list json) :=
  match bs with
  | [] => ret structured_data
  | block :: rest =>
      entry <- evidence_entry self block ;;
      evidence_loop self rest
        match entry with
        | Some e => structured_data ++ [e]
        | None => structured_data
        end
  end.

Definition to_evidence (finding_id : json) (enrichment : Enrichment)
    : M Dict :=
  self <- get_self ;;
  structured_data <- evidence_loop self (blocks enrichment) [] ;;
  ret [ ("finding_id", JStr (str_of finding_id));
        ("data", JStr (json_dumps (JArr structured_data)));
        ("account_id", JStr (account_id self));
        ("category",
          match category enrichment with
          | Some c => enum_value c
          | None => JNull
          end) ].

(** One round of the loop of [persist_finding] over the enrichments. *)
Definition persist_enrichment (finding : Finding) (finding_id : json)
    (enrichment : Enrichment) : M unit :=
  evidence <- to_evidence finding_id enrichment ;;
  res <- rpc "insert_enrichment_v1" evidence ;;
  if not_in_200_201 res then
    logging ERROR (FailedPersistEnrichment finding enrichment (data res))
  else
    ret tt.

Definition persist_finding (finding : Finding) : M unit :=
  issue <- to_issue finding ;;
  res <- rpc "insert_finding_v1" issue ;;
  if not_in_200_201 res then
    logging ERROR (FailedPersistFinding finding (data res)) ;;
    handle_supabase_error
  else
    res_data <- lift (getitem0 (data res)) ;;
    finding_id <- lift (py_get "id" res_data) ;;
    new_finding <- lift (py_get "inserted" res_data) ;;
    (if negb (truthy new_finding)
     then logging INFO (FindingAlreadyExists finding)
     else ret tt) ;;
    for_each (enrichments finding) (persist_enrichment finding finding_id).

Definition to_service (self : SupabaseDal) (service : ServiceInfo) : Dict :=
  [ ("name", service_name service);
    ("type", service_type service);
    ("namespace", service_namespace service);
    ("classification", classification service);
    ("cluster", JStr (cluster self));
    ("account_id", JStr (account_id self));
    ("deleted", JBool (deleted service));
    ("service_key", JStr (get_service_key service));
    ("update_time", JStr "now()") ].

Definition persist_service (service : ServiceInfo) : M unit :=
  self <- get_self ;;
  let db_service := to_service self service in
  res <- execute (Insert SERVICES_TABLE db_service true) ;;
  if not_in_200_201 res then
    logging ERROR (FailedPersistService service (data res)) ;;
    handle_supabase_error
  else
    ret tt.

(** [ServiceInfo(name=service["name"], service_type=service["type"],
    namespace=service["namespace"],
    classification=service["classification"])] *)
Definition service_of_row (service : json) : M ServiceInfo :=
  n <- lift (getitem "name" service) ;;
  t <- lift (getitem "type" service) ;;
  ns <- lift (getitem "namespace" service) ;;
  c <- lift (getitem "classification" service) ;;
  ret {| service_name := n; service_type := t; service_namespace := ns;
         classification := c; deleted := false |}.

Definition get_active_services : M (list ServiceInfo) :=
  self <- get_self ;;
  res <- execute
           (Select SERVICES_TABLE
              [ "name"; "type"; "namespace"; "classification" ]
              [ ("account_id", "eq", JStr (account_id self));
                ("cluster", "eq", JStr (cluster self));
                ("deleted", "eq", JBool false) ]) ;;
  if negb (status_code res =? 200) then
    let msg := FailedGetServices (data res) in
    logging ERROR msg ;;
    handle_supabase_error ;;
    raise (Exception msg)
  else
    rows <- lift (py_iter (data res)) ;;
    map_M service_of_row rows.

End Methods.

(** ** Blocks that the encoder can take *)

(** The exception that the round of the loop of [to_evidence] raises for a
    block: for a file block whose name has no dot, and for a callback block
    with a callback that [create_for_func] does not take. *)
Definition block_error {ext : Externals} (self : SupabaseDal) (block : Block)
    : option exn :=
  match block with
  | FileBlock filename _ =>
      match rindex "."%char filename with
      | Some _ => None
      | None => Some (ValueError "substring not found")
      end
  | CallbackBlock choices context0 =>
      match callbacks_of (json_dumps (JObj (callback_context self context0)))
              choices with
      | inl e => Some e
      | inr _ => None
      end
  | _ => None
  end.

(** The exception of the first block that has one. *)
Fixpoint first_error {ext : Externals} (self : SupabaseDal) (bs : list Block)
    : option exn :=
  match bs with
  | [] => None
  | block :: rest =>
      match block_error self block with
      | Some e => Some e
      | None => first_error self rest
      end
  end.



(** The state after a sign-in attempt, whether the handshake raised or not. *)
Definition attempt {ext : Externals} (s : State) : State := snd (sign_in s).

(** [n] sign-in attempts in a row. *)
Fixpoint attempts {ext : Externals} (n : nat) (s : State) : State :=
  match n with
  | O => s
  | S n' => attempts n' (attempt s)
  end.

(** ** A stub of the remote Services table *)

(** A stored service row, with the columns that [to_service] writes. *)
Record ServiceRow : Type := {
  row_name : json;
  row_type : json;
  row_namespace : json;
  row_classification : json;
  row_cluster : string;
  row_account_id : string;
  row_deleted : bool;
  row_service_key : string
}.

Definition row_dict (r : ServiceRow) : Dict :=
  [ ("name", row_name r);
    ("type", row_type r);
    ("namespace", row_namespace r);
    ("classification", row_classification r);
    ("cluster", JStr (row_cluster r));
    ("account_id", JStr (row_account_id r));
    ("deleted", JBool (row_deleted r));
    ("service_key", JStr (row_service_key r)) ].

(** A row passes a filter [(column, "eq", value)] when it holds [value] in
    that column; no other operator is used by the module. *)
Definition passes (row : Dict) (f : string * string * json) : bool :=
  match f with
  | (column, op, value) =>
      String.eqb op "eq" &&
      match dict_get column row with
      | Some v => json_eqb v value
      | None => false
      end
  end.

Definition project (columns : list string) (row : Dict) : json :=
  JObj (flat_map (fun c => match dict_get c row with
                           | Some v => [(c, v)]
                           | None => []
                           end) columns).

(** The answer of a store that holds [table] to a select: status 200 and the
    selected columns of the rows that pass every filter, in table order. *)
Definition stub_select (table : list ServiceRow) (columns : list string)
    (filters : list (string * string * json)) : Response :=
  {| status_code := 200;
     data := JArr (map (project columns)
                     (filter (fun row => forallb (passes row) filters)
                        (map row_dict table))) |}.

(** The rows of the table that a caller of [self] is to see, and the
    [ServiceInfo] made of a row. *)
Definition active_for (self : SupabaseDal) (r : ServiceRow) : bool :=
  String.eqb (row_account_id r) (account_id self) &&
  String.eqb (row_cluster r) (cluster self) &&
  negb (row_deleted r).

Definition info_of_row (r : ServiceRow) : ServiceInfo :=
  {| service_name := row_name r; service_type := row_type r;
     service_namespace := row_namespace r;
     classification := row_classification r; deleted := false |}.

(** The query of [get_active_services]. *)
Definition active_services_query (self : SupabaseDal) : Request :=
  Select SERVICES_TABLE
    [ "name"; "type"; "namespace"; "classification" ]
    [ ("account_id", "eq", JStr (account_id self));
      ("cluster", "eq", JStr (cluster self));
      ("deleted", "eq", JBool false) ].

(** A store that holds [table] as its Services table and knows no other
    resource. *)
Definition stub_execute (table : list ServiceRow) (req : Request) : Response :=
  match req with
  | Select t columns filters =>
      if String.eqb t SERVICES_TABLE then stub_select table columns filters
      else {| status_code := 404; data := JNull |}
  | _ => {| status_code := 404; data := JNull |}
  end.

(** The state once the clock is read and the reading is stored in
    [self.sign_in_time]. *)
Definition stamped (s : State) : State :=
  {| dal := set_sign_in_time (now s) (dal s); world := world (tick s) |}.

(** ** class RobustaClient *)

(** [s.rstrip(c)] for a one-character set: [s] without the [c]s it ends
    with. *)
Fixpoint rstrip (c : ascii) (s : string) : string :=
  match s with
  | EmptyString => EmptyString
  | String a rest =>
      match rstrip c rest with
      | EmptyString => if Ascii.eqb a c then EmptyString
                       else String a EmptyString
      | kept => String a kept
      end
  end.

(** The string made of [n] times the character [c]. *)
Fixpoint copies (n : nat) (c : ascii) : string :=
  match n with
  | O => EmptyString
  | S n' => String c (copies n' c)
  end.

Fixpoint last_char (s : string) : option ascii :=
  match s with
  | EmptyString => None
  | String a EmptyString => Some a
  | String _ rest => last_char rest
  end.

(** [a | b] on dictionaries: the entries of [a], with the values of [b]
    where [b] has the key, then the entries of [b] under new keys. *)
Definition dict_merge (a b : Dict) : Dict :=
  fold_left (fun d kv => dict_set (fst kv) (snd kv) d) b a.

(** The GoTrue client behind [client.auth]: its attribute
    [current_session] ([JNull] for [None]) and, in [call_session], what its
    method [session()] returns. *)
Record AuthClient : Type := {
  current_session : json;
  call_session : json
}.

(** The attributes of the client that [_get_auth_headers] and [rpc] read:
    [client_auth] is [None] when the attribute [auth] is missing; [base_url]
    and [params] are [str(postgrest.session.base_url)] and
    [str(postgrest.session.params)], and [headers] is the dictionary
    [dict(postgrest.session.headers)]. *)
Record RobustaClient : Type := {
  supabase_key : string;
  client_auth : option AuthClient;
  base_url : string;
  params : string;
  headers : Dict
}.

Section Client.

Context {ext : Externals}.

(** [f"{x}"]: a string as it is, any other value as [str] gives it. *)
Definition fstr (j : json) : string :=
  match j with
  | JStr s => s
  | _ => str_of j
  end.

Definition _get_auth_headers (self : RobustaClient) : exn + Dict :=
  let session :=
    match client_auth self with
    | Some auth => current_session auth
    | None => JNull
    end in
  let access_token : exn + json :=
    if truthy session then
      match getitem "access_token" session with
      | inl e => inl e
      | inr token =>
          if truthy token then
            match client_auth self with
            | Some auth => getitem "access_token" (call_session auth)
            | None => inr (JStr (supabase_key self))
            end
          else inr (JStr (supabase_key self))
      end
    else inr (JStr (supabase_key self)) in
  match access_token with
  | inl e => inl e
  | inr token =>
      inr [ ("apiKey", JStr (supabase_key self));
            ("Authorization", JStr (String.append "Bearer " (fstr token))) ]
  end.

(** The POST that [rpc] makes: its URL, its headers and its JSON body. *)
Record Post : Type := {
  post_url : string;
  post_headers : Dict;
  post_json : Dict
}.

(** The request of [RobustaClient.rpc(fn, params)], up to the call of
    [requests.post]. *)
Definition rpc_post (self : RobustaClient) (fn : string) (body : Dict)
    : exn + Post :=
  let path := String.append "rpc/" fn in
  let url := rstrip "/"%char (base_url self) in
  let query := params self in
  match _get_auth_headers self with
  | inl e => inl e
  | inr auth_headers =>
      inr {| post_url :=
               String.append url
                 (String.append "/"
                    (String.append path (String.append "?" query)));
             post_headers := dict_merge (headers self) auth_headers;
             post_json := body |}
  end.

End Client.

Definition set_base_url (u : string) (c : RobustaClient) : RobustaClient :=
  {| supabase_key := supabase_key c; client_auth := client_auth c;
     base_url := u; params := params c; headers := headers c |}.

(** The headers of a client that is not logged in. *)
Definition anon_headers (self : RobustaClient) : Dict :=
  [ ("apiKey", JStr (supabase_key self));
    ("Authorization",
      JStr (String.append "Bearer " (supabase_key self))) ].

(** [n] runs of the recovery in a row. *)
Fixpoint recoveries {ext : Externals} (n : nat) (s : State) : State :=
  match n with
  | O => s
  | S n' => recoveries n' (snd (handle_supabase_error s))
  end.

(** The state once the clock was read [n] times. *)
Fixpoint ticked (n : nat) (s : State) : State :=
  match n with
  | O => s
  | S n' => ticked n' (tick s)
  end.

(** ** Predicates on blocks and rows *)

(** The blocks for which a round of the loop of [to_evidence] appends an
    entry, and the blocks of a class that the loop does not know. *)
Definition yields (block : Block) : bool :=
  match block with
  | MarkdownBlock text => negb (String.eqb text "")
  | OtherBlock _ => false
  | _ => true
  end.

Definition is_other (block : Block) : bool :=
  match block with
  | OtherBlock _ => true
  | _ => false
  end.

(** An entry of the structured data: an object with a string under
    ["type"]. *)
Definition typed_entry (j : json) : Prop :=
  exists kvs t, j = JObj kvs /\ dict_get "type" kvs = Some (JStr t).

(** A row that [get_active_services] can read: an object with the four
    selected columns. *)
Definition has_column (k : string) (kvs : Dict) : bool :=
  match dict_get k kvs with
  | Some _ => true
  | None => false
  end.

Definition row_ok (j : json) : bool :=
  match j with
  | JObj kvs =>
      has_column "name" kvs && has_column "type" kvs &&
      has_column "namespace" kvs && has_column "classification" kvs
  | _ => false
  end.

(** The columns of a row that hold a string are the attributes of the
    service made of the row, which is not marked as deleted. *)
Definition read_from (row : json) (info : ServiceInfo) : Prop :=
  row_ok row = true /\
  (forall t, getitem "name" row = inr (JStr t) ->
             service_name info = JStr t) /\
  (forall t, getitem "type" row = inr (JStr t) ->
             service_type info = JStr t) /\
  (forall t, getitem "namespace" row = inr (JStr t) ->
             service_namespace info = JStr t) /\
  (forall t, getitem "classification" row = inr (JStr t) ->
             classification info = JStr t) /\
  deleted info = false.

(** The row of the answer to the Issue insert, as [persist_finding] reads
    it: [res.get("data")[0]], which must have a method [get]. *)
Definition inserted_row (res : Response) : exn + Dict :=
  match getitem0 (data res) with
  | inl e => inl e
  | inr (JObj row) => inr row
  | inr _ => inl (AttributeError "object has no attribute 'get'")
  end.

(** ** The rounds of the loop of [persist_finding] *)





(** ** What an operation may change *)

(** The attributes of the object but [sign_in_time]. *)
Definition config (d : SupabaseDal) : SupabaseDal := set_sign_in_time 0 d.

(** [evolves s s']: from [s] to [s'] the object keeps its configuration, the
    clock, the store and the authentication service are the same, the clock
    was only read, and the traces and the log were only appended to; every
    login handshake made was made with the credentials of the object. *)
Record evolves (s s' : State) : Prop := {
  ev_config : config (dal s') = config (dal s);
  ev_clock : clock (world s') = clock (world s);
  ev_store : store (world s') = store (world s);
  ev_auth : auth (world s') = auth (world s);
  ev_ticks : (ticks (world s) <= ticks (world s'))%nat;
  ev_sent : exists l, sent (world s') = sent (world s) ++ l;
  ev_logins :
    exists n, logins (world s')
              = logins (world s) ++ repeat (email (dal s), password (dal s)) n;
  ev_log : exists l, log (world s') = log (world s) ++ l
}.

(** A computation whose every run, returning or raising, [evolves] the
    state. *)
Definition steady {A : Type} (m : M A) : Prop :=
  forall s, evolves s (snd (m s)).

(** [sends_only P n s s']: from [s] to [s'] nothing changed but the log and
    the trace of the store, which got at most [n] calls, all of them
    satisfying [P]. *)
Definition sends_only (P : Request -> Prop) (n : nat) (s s' : State) : Prop :=
  dal s' = dal s /\
  logins (world s') = logins (world s) /\
  ticks (world s') = ticks (world s) /\
  exists reqs,
    sent (world s') = sent (world s) ++ reqs /\
    (List.length reqs <= n)%nat /\
    Forall P reqs.

Definition is_enrichment_insert (req : Request) : Prop :=
  exists evidence, req = Rpc "insert_enrichment_v1" evidence.

(** ** Sample data *)

(** A serialiser for the samples, with the separators of [json.dumps] and
    without escapes. *)
Definition quoted (s : string) : string :=
  String (ascii_of_nat 34) (String.append s (String (ascii_of_nat 34) "")).

Fixpoint show_json (j : json) : string :=
  match j with
  | JNull => "null"
  | JBool true => "true"
  | JBool false => "false"
  | JNum z => NilZero.string_of_int (Z.to_int z)
  | JStr s => quoted s
  | JArr xs =>
      String.append "["
        (String.append
           ((fix items (l : list json) : string :=
               match l with
               | [] => ""
               | [x] => show_json x
               | x :: rest =>
                   String.append (show_json x) (String.append ", " (items rest))
               end) xs)
           "]")
  | JObj kvs =>
      String.append "{"
        (String.append
           ((fix entries (l : list (string * json)) : string :=
               match l with
               | [] => ""
               | [(k, v)] =>
                   String.append (quoted k) (String.append ": " (show_json v))
               | (k, v) :: rest =>
                   String.append (quoted k)
                     (String.append ": "
                        (String.append (show_json v)
                           (String.append ", " (entries rest))))
               end) kvs)
           "}")
  end.

Definition sample_ext : Externals :=
  {| to_github_markdown := fun text => text;
     guess_service_key := fun name namespace =>
       String.append namespace (String.append "/" name);
     b64encode_str := fun _ => "b'aGk='";
     json_dumps := show_json;
     create_for_func_json := fun callback _ _ =>
       if String.eqb callback "" then inl (TypeError "not a playbook action")
       else inr callback;
     str_of := fun j => match j with JStr s => s | _ => "None" end;
     isoformat := fun _ => "2022-06-01T12:00:00";
     get_service_key := fun _ => "default/Deployment/api";
     new_client_error := fun url key =>
       if String.eqb url ""
       then Some (Exception (Text "supabase_url is required"))
       else None;
     SUPABASE_LOGIN_RATE_LIMIT_SEC := 900;
     TARGET_ID := "target" |}.

Definition sample_dal : SupabaseDal :=
  {| url := "https://store.example.com"; key := "api-key";
     account_id := "acct-1"; cluster := "prod";
     email := "robot@example.com"; password := "secret";
     sign_in_time := 0; target_id := "target"; sink_name := "robusta_ui" |}.

(** The clock of the samples: two readings a second apart, a third one
    hundred seconds after the first, and the later ones a thousand seconds
    after it. *)
Definition sample_clock (n : nat) : Z :=
  match n with
  | O => 1700000000
  | S O => 1700000001
  | S (S O) => 1700000100
  | _ => 1700001000
  end.

Definition sample_state (st : nat -> Request -> exn + Response)
    (au : nat -> option exn) : State :=
  {| dal := sample_dal;
     world := {| clock := sample_clock; ticks := 0; store := st; sent := [];
                 auth := au; logins := []; log := [] |} |}.

Definition accepted : Response :=
  {| status_code := 200;
     data := JArr [JObj [("id", JStr "42"); ("inserted", JBool true)]] |}.

Definition rejected : Response :=
  {| status_code := 500; data := JStr "internal error" |}.

Definition accepting_store (n : nat) (req : Request) : exn + Response :=
  inr accepted.

Definition rejecting_store (n : nat) (req : Request) : exn + Response :=
  inr rejected.

Definition unreachable_store (n : nat) (req : Request) : exn + Response :=
  inl (ConnectionError "connection refused").


(** A store that accepts the first call and is unreachable at the second. *)
Definition flaky_store (n : nat) (req : Request) : exn + Response :=
  match n with
  | S O => inl (ConnectionError "connection reset")
  | _ => inr accepted
  end.

Definition auth_ok (n : nat) : option exn := None.

Definition auth_fails (n : nat) : option exn :=
  Some (AuthError "invalid login credentials").

(** An enumeration member whose value is not its name, as Python's
    [ISSUE = "issue"] declares one. *)
Definition ISSUE : EnumMember :=
  {| enum_name := "ISSUE"; enum_value := JStr "issue" |}.

Definition HIGH : EnumMember :=
  {| enum_name := "HIGH"; enum_value := JNum 4 |}.

Definition PROMETHEUS : EnumMember :=
  {| enum_name := "PROMETHEUS"; enum_value := JStr "prometheus" |}.

Definition TYPE_POD : EnumMember :=
  {| enum_name := "TYPE_POD"; enum_value := JStr "pod" |}.

Definition report : Enrichment :=
  {| blocks := [MarkdownBlock "hello"; DividerBlock; OtherBlock "JsonBlock"];
     category := None |}.

Definition heading : Enrichment :=
  {| blocks := [HeaderBlock "Logs"]; category := None |}.

Definition attachment : Enrichment :=
  {| blocks := [FileBlock "README" [x68; x69]]; category := None |}.

Definition finding_with (es : list Enrichment) : Finding :=
  {| title := "Pod is crash looping";
     aggregation_key := "CrashLoopBackOff";
     severity := HIGH;
     source := PROMETHEUS;
     finding_type := ISSUE;
     failure := true;
     description := None;
     subject := {| subject_name := "api-7d9"; subject_type := TYPE_POD;
                   subject_namespace := "default" |};
     fingerprint := "abc";
     enrichments := es |}.

Definition sample_finding : Finding := finding_with [report; heading].

(** A finding whose first enrichment holds a file without an extension. *)
Definition attachment_finding : Finding := finding_with [attachment; heading].

Definition sample_service : ServiceInfo :=
  {| service_name := JStr "api"; service_type := JStr "Deployment";
     service_namespace := JStr "default"; classification := JStr "None";
     deleted := false |}.

Definition service_row (name account cl : string) (del : bool) : ServiceRow :=
  {| row_name := JStr name; row_type := JStr "Deployment";
     row_namespace := JStr "default"; row_classification := JStr "None";
     row_cluster := cl; row_account_id := account; row_deleted := del;
     row_service_key := String.append "default/Deployment/" name |}.

Definition sample_table : list ServiceRow :=
  [ service_row "api" "acct-1" "prod" false;
    service_row "old-api" "acct-1" "prod" true;
    service_row "billing" "acct-2" "prod" false;
    service_row "api" "acct-1" "staging" false;
    service_row "worker" "acct-1" "prod" false ].

Definition table_store (n : nat) (req : Request) : exn + Response :=
  inr (stub_execute sample_table req).

(** The resource of a call on the store. *)
Definition resource (req : Request) : string :=
  match req with
  | Rpc fn _ => fn
  | Insert table _ _ => table
  | Select table _ _ => table
  end.

(** An answer that accepts the Issue without a row, and its store. *)
Definition accepted_empty : Response :=
  {| status_code := 201; data := JArr [] |}.

Definition empty_store (n : nat) (req : Request) : exn + Response :=
  inr accepted_empty.

(** Two rows as a store returns them for the four selected columns, and a
    row without its classification. *)
Definition api_row : json :=
  JObj [ ("name", JStr "api"); ("type", JStr "Deployment");
         ("namespace", JStr "default"); ("classification", JStr "None") ].

Definition worker_row : json :=
  JObj [ ("name", JStr "worker"); ("type", JStr "DaemonSet");
         ("namespace", JStr "kube-system"); ("classification", JStr "None") ].

Definition short_row : json :=
  JObj [ ("name", JStr "old"); ("type", JStr "Deployment");
         ("namespace", JStr "default") ].

Definition rows_store (rows : list json) (n : nat) (req : Request)
    : exn + Response :=
  inr {| status_code := 200; data := JArr rows |}.

(** An object that signed in five hundred seconds after the first reading
    of the sample clock. *)
Definition recent_state : State :=
  {| dal := set_sign_in_time 1700000500 sample_dal;
     world := world (sample_state accepting_store auth_fails) |}.

(** A client that is logged in, with a base URL that ends with a slash and
    session headers that hold an [apiKey] of their own. *)
Definition sample_client : RobustaClient :=
  {| supabase_key := "anon-key";
     client_auth :=
       Some {| current_session := JObj [("access_token", JStr "jwt-1")];
               call_session := JObj [("access_token", JStr "jwt-2")] |};
     base_url := "https://store.example.com/rest/v1/";
     params := "";
     headers := [ ("apiKey", JStr "stale");
                  ("Accept", JStr "application/json") ] |}.

(** * Properties *)

Section Properties.

Context {ext : Externals}.

(** ** Strings *)

Example rindex_last_dot : rindex "."%char "pod.logs.txt" = Some 8%nat.
Proof. reflexivity. Qed.

Example extension_of_name :
  slice_from 9 "pod.logs.txt" = "txt" /\ slice_from 1 ".bashrc" = "bashrc" /\
  slice_from 6 "notes." = "".
Proof. repeat split. Qed.

Example rindex_no_dot : rindex "."%char "README" = None.
Proof. reflexivity. Qed.

(** [rindex] finds an occurrence, and none follows it. *)
Lemma rindex_spec (c : ascii) (s : string) (i : nat) :
  rindex c s = Some i ->
  String.get i s = Some c /\
  forall j, (i < j)%nat -> String.get j s <> Some c.
Proof.
  revert i. induction s as [| a rest IH]; simpl; intros i H; [discriminate |].
  destruct (rindex c rest) as [k |] eqn:E.
  - injection H as <-. destruct (IH k eq_refl) as [Hget Hlast].
    split; [exact Hget |].
    intros [| j] Hj; [lia |]. apply Hlast. lia.
  - destruct (Ascii.eqb a c) eqn:Ea; [| discriminate].
    injection H as <-. apply Ascii.eqb_eq in Ea. subst a.
    split; [reflexivity |].
    intros [| j] Hj; [lia |]. simpl. 
    clear -E. revert j. induction rest as [| b rest IHr]; intros j; simpl;
      [discriminate |].
    simpl in E. destruct (rindex c rest) eqn:E'; [discriminate |].
    destruct (Ascii.eqb b c) eqn:Eb; [discriminate |].
    destruct j as [| j].
    + intros H. injection H as ->. now rewrite Ascii.eqb_refl in Eb.
    + now apply IHr.
Qed.

(** ** States *)

Lemma add_logs_nil (s : State) : add_logs [] s = s.
Proof.
  destruct s as [d w]; destruct w; unfold add_logs, with_world, set_log; simpl.
  now rewrite app_nil_r.
Qed.

Lemma add_logs_app (l1 l2 : list LogRecord) (s : State) :
  add_logs l2 (add_logs l1 s) = add_logs (l1 ++ l2) s.
Proof.
  unfold add_logs, with_world, set_log; simpl.
  now rewrite app_assoc.
Qed.

(** ** Session handling *)

Lemma sign_in_skipped (s : State) :
  now s <= sign_in_time (dal s) + SUPABASE_LOGIN_RATE_LIMIT_SEC ->
  sign_in s = (Return tt, tick s).
Proof.
  intros H. unfold sign_in, bind, get_self, time_time.
  apply Z.ltb_ge in H. now rewrite H.
Qed.

Lemma sign_in_due (s : State) :
  sign_in_time (dal s) + SUPABASE_LOGIN_RATE_LIMIT_SEC < now s ->
  sign_in s =
    (match login_outcome s with
     | None => Return tt
     | Some e => Raise e
     end,
     logged_in (email (dal s)) (password (dal s))
       (stamped (add_logs [(INFO, SupabaseDalLogin)] (tick s)))).
Proof.
  intros H. unfold sign_in, bind, get_self, time_time.
  apply Z.ltb_lt in H. rewrite H.
  unfold logging, modify_self, auth_sign_in, login_outcome. simpl.
  now destruct (auth (world s) (List.length (logins (world s)))).
Qed.

(** The constructor signs in when the clock reads more than the minimum
    interval, as a clock that counts from the epoch does: the object starts
    with [sign_in_time = 0], and ends with the time of the attempt. *)
Lemma init_signs_in (u k acct em pw sink cl : string) (w : World) :
  new_client_error u k = None ->
  SUPABASE_LOGIN_RATE_LIMIT_SEC < clock w (ticks w) ->
  let s := snd (__init__ u k acct em pw sink cl w) in
  logins (world s) = logins w ++ [(em, pw)] /\
  sign_in_time (dal s) = clock w (S (ticks w)) /\
  account_id (dal s) = acct /\
  cluster (dal s) = cl.
Proof.
  intros Hc H s. unfold s, __init__, new_client, bind. rewrite Hc.
  unfold ret. rewrite sign_in_due; [| exact H].
  repeat split.
Qed.

(** A sign-in attempt changes neither the store nor the trace of the calls
    made on it. *)
Lemma sign_in_store (s : State) :
  sent (world (attempt s)) = sent (world s) /\
  store (world (attempt s)) = store (world s).
Proof.
  unfold attempt.
  destruct (Z.lt_ge_cases (sign_in_time (dal s) + SUPABASE_LOGIN_RATE_LIMIT_SEC)
              (now s)) as [H | H].
  - rewrite (sign_in_due s H). now split.
  - rewrite (sign_in_skipped s H). now split.
Qed.

Lemma handle_supabase_error_eq (s : State) :
  handle_supabase_error s = (Return tt, attempt s).
Proof.
  unfold handle_supabase_error, try_except, attempt.
  destruct (sign_in s) as [[[] | e] s']; reflexivity.
Qed.

Lemma handle_supabase_error_store (s : State) :
  sent (world (snd (handle_supabase_error s))) = sent (world s) /\
  store (world (snd (handle_supabase_error s))) = store (world s).
Proof.
  rewrite handle_supabase_error_eq. apply sign_in_store.
Qed.

(** The handler only appends to the log. *)
Lemma handle_supabase_error_log (s : State) :
  exists l, log (world (snd (handle_supabase_error s))) = log (world s) ++ l.
Proof.
  rewrite handle_supabase_error_eq. unfold attempt.
  destruct (Z.lt_ge_cases (sign_in_time (dal s) + SUPABASE_LOGIN_RATE_LIMIT_SEC)
              (now s)) as [H | H].
  - rewrite (sign_in_due s H). simpl. eexists. reflexivity.
  - rewrite (sign_in_skipped s H). simpl. exists []. now rewrite app_nil_r.
Qed.

Lemma handle_supabase_error_keeps (r : LogRecord) (s : State) :
  In r (log (world s)) -> In r (log (world (snd (handle_supabase_error s)))).
Proof.
  intros H. destruct (handle_supabase_error_log s) as [l ->].
  apply in_or_app. now left.
Qed.

(** C6: [handle_supabase_error] never raises, and it makes one sign-in
    attempt under the rate limit: the login handshake is made exactly when
    the clock reads more than [sign_in_time + SUPABASE_LOGIN_RATE_LIMIT_SEC].
    But an attempt that raises is not logged: the call of [logging.error]
    has one argument for a message without a conversion, so that no record
    is written, and the log holds nothing after the information record of
    the login. *)
Theorem handle_supabase_error_swallows (s : State) :
  handle_supabase_error s = (Return tt, attempt s)
  /\ logins (world (snd (handle_supabase_error s))) =
       (if sign_in_time (dal s) + SUPABASE_LOGIN_RATE_LIMIT_SEC <? now s
        then logins (world s) ++ [(email (dal s), password (dal s))]
        else logins (world s))
  /\ (forall e, fst (sign_in s) = Raise e ->
        log (world (snd (handle_supabase_error s))) =
          log (world s) ++ [(INFO, SupabaseDalLogin)]).
Proof.
  split; [apply handle_supabase_error_eq | split].
  - rewrite handle_supabase_error_eq. unfold attempt.
    destruct (sign_in_time (dal s) + SUPABASE_LOGIN_RATE_LIMIT_SEC <? now s)
      eqn:E.
    + apply Z.ltb_lt in E. now rewrite (sign_in_due s E).
    + apply Z.ltb_ge in E. now rewrite (sign_in_skipped s E).
  - intros e He. rewrite handle_supabase_error_eq. unfold attempt.
    destruct (Z.lt_ge_cases
                (sign_in_time (dal s) + SUPABASE_LOGIN_RATE_LIMIT_SEC) (now s))
      as [H | H].
    + now rewrite (sign_in_due s H).
    + rewrite (sign_in_skipped s H) in He. discriminate.
Qed.

(** Three sign-in attempts in a row, the first of them due.  When the
    second is made less than the minimum interval after the first, the two
    make exactly one login handshake; when the third is made more than the
    interval after the time the first recorded, it makes a second one.  [t k]
    and [t (k+1)] are the readings of the clock in the first attempt (the
    check, then the recorded time), [t (k+2)] the one of the second attempt
    and [t (k+3)] the one of the third. *)
Lemma three_attempts_in_a_row (s : State) :
  let k := ticks (world s) in
  let t := clock (world s) in
  let login := (email (dal s), password (dal s)) in
  sign_in_time (dal s) + SUPABASE_LOGIN_RATE_LIMIT_SEC < t k ->
  t k <= t (S k) ->
  t (S (S k)) - t k < SUPABASE_LOGIN_RATE_LIMIT_SEC ->
  t (S k) + SUPABASE_LOGIN_RATE_LIMIT_SEC < t (S (S (S k))) ->
  logins (world (attempt (attempt s))) = logins (world s) ++ [login] /\
  logins (world (attempt (attempt (attempt s)))) =
    logins (world s) ++ [login; login].
Proof.
  intros k t login H1 Hmono H2 H3.
  assert (E1 : attempt s =
               logged_in (email (dal s)) (password (dal s))
                 (stamped (add_logs [(INFO, SupabaseDalLogin)] (tick s)))).
  { unfold attempt. now rewrite (sign_in_due s H1). }
  set (s1 := attempt s) in *.
  assert (E2 : attempt s1 = tick s1).
  { unfold attempt. rewrite sign_in_skipped; [reflexivity |].
    rewrite E1. unfold now, logged_in, stamped, now; simpl. fold k t. lia. }
  set (s2 := attempt s1) in *.
  assert (N3 : sign_in_time (dal s2) + SUPABASE_LOGIN_RATE_LIMIT_SEC < now s2).
  { rewrite E2, E1. unfold now, logged_in, stamped, now; simpl. fold k t. lia. }
  split.
  - rewrite E2, E1. reflexivity.
  - unfold attempt at 1. rewrite (sign_in_due s2 N3).
    rewrite E2, E1. simpl. now rewrite <- app_assoc.
Qed.

(** C5: three sign-in attempts, made in the states [s1], [s2] and [s3] of the
    same object; between two attempts anything may happen that leaves the
    object and the trace of the handshakes as they are.  The first attempt
    is due, and the clock does not go back between its two readings.  When
    the second attempt is made less than the minimum interval after the
    first, the two make exactly one login handshake; when the third is made
    more than the interval after the time that the first recorded, it makes a
    second one. *)
Theorem sign_in_rate_limited (s1 s2 s3 : State) :
  let login := (email (dal s1), password (dal s1)) in
  let recorded := sign_in_time (dal (attempt s1)) in
  sign_in_time (dal s1) + SUPABASE_LOGIN_RATE_LIMIT_SEC < now s1 ->
  now s1 <= recorded ->
  dal s2 = dal (attempt s1) ->
  logins (world s2) = logins (world (attempt s1)) ->
  now s2 - now s1 < SUPABASE_LOGIN_RATE_LIMIT_SEC ->
  dal s3 = dal (attempt s2) ->
  logins (world s3) = logins (world (attempt s2)) ->
  recorded + SUPABASE_LOGIN_RATE_LIMIT_SEC < now s3 ->
  logins (world (attempt s1)) = logins (world s1) ++ [login] /\
  logins (world (attempt s2)) = logins (world s1) ++ [login] /\
  logins (world (attempt s3)) = logins (world s1) ++ [login; login].
Proof.
  intros login recorded H1 Hmono Hd2 Hl2 H2 Hd3 Hl3 H3.
  assert (L1 : logins (world (attempt s1)) = logins (world s1) ++ [login]).
  { unfold attempt. now rewrite (sign_in_due s1 H1). }
  assert (E2 : attempt s2 = tick s2).
  { unfold attempt. rewrite sign_in_skipped; [reflexivity |].
    rewrite Hd2. fold recorded. lia. }
  assert (N3 : sign_in_time (dal s3) + SUPABASE_LOGIN_RATE_LIMIT_SEC < now s3).
  { rewrite Hd3, E2. simpl. rewrite Hd2. exact H3. }
  split; [exact L1 | split].
  - rewrite E2. simpl. now rewrite Hl2.
  - unfold attempt. rewrite (sign_in_due s3 N3). simpl.
    rewrite Hl3, E2. simpl. rewrite Hl2, L1, Hd3, E2. simpl. rewrite Hd2.
    assert (Hdal : email (dal (attempt s1)) = email (dal s1) /\
                   password (dal (attempt s1)) = password (dal s1)).
    { unfold attempt. now rewrite (sign_in_due s1 H1). }
    destruct Hdal as [-> ->]. now rewrite <- app_assoc.
Qed.

(** C10: a sign-in attempt whose login handshake raises has stored the time
    of the attempt before the handshake was made, so the state it leaves
    holds that time; and in every later state of the object in which the
    clock reads no more than that time plus the minimum interval, [sign_in]
    returns at once, without a handshake: it only reads the clock. *)
Theorem failed_sign_in_consumes_window (s : State) (e : exn) :
  fst (sign_in s) = Raise e ->
  attempt s =
    logged_in (email (dal s)) (password (dal s))
      (stamped (add_logs [(INFO, SupabaseDalLogin)] (tick s)))
  /\ sign_in_time (dal (attempt s)) = clock (world s) (S (ticks (world s)))
  /\ forall s' : State,
       dal s' = dal (attempt s) ->
       now s' <= sign_in_time (dal (attempt s)) + SUPABASE_LOGIN_RATE_LIMIT_SEC ->
       sign_in s' = (Return tt, tick s')
       /\ logins (world (attempt s')) = logins (world s').
Proof.
  intros He.
  assert (H : sign_in_time (dal s) + SUPABASE_LOGIN_RATE_LIMIT_SEC < now s).
  { destruct (Z.lt_ge_cases
                (sign_in_time (dal s) + SUPABASE_LOGIN_RATE_LIMIT_SEC) (now s))
      as [H | H]; [exact H |].
    rewrite (sign_in_skipped s H) in He. discriminate. }
  assert (E : attempt s =
              logged_in (email (dal s)) (password (dal s))
                (stamped (add_logs [(INFO, SupabaseDalLogin)] (tick s)))).
  { unfold attempt. now rewrite (sign_in_due s H). }
  split; [exact E | split].
  - rewrite E. reflexivity.
  - intros s' Hd Hw. rewrite <- Hd in Hw.
    unfold attempt. rewrite (sign_in_skipped s' Hw). now split.
Qed.

(** As long as the clock reads no more than the stored time plus the
    minimum interval, any number of attempts in a row leaves the object and
    the trace of the handshakes as they are. *)
Lemma sign_in_noop_repeated (n : nat) :
  forall s : State,
    (forall i, (i < n)%nat ->
       clock (world s) (ticks (world s) + i)
         <= sign_in_time (dal s) + SUPABASE_LOGIN_RATE_LIMIT_SEC) ->
    dal (attempts n s) = dal s /\
    logins (world (attempts n s)) = logins (world s).
Proof.
  induction n as [| n IH]; intros s Hw; [now split |].
  assert (E : attempt s = tick s).
  { unfold attempt. rewrite sign_in_skipped; [reflexivity |].
    unfold now. rewrite <- (Nat.add_0_r (ticks (world s))).
    apply Hw. lia. }
  simpl. rewrite E. destruct (IH (tick s)) as [Hd Hl].
  - intros i Hi. simpl. rewrite <- Nat.add_succ_r. apply Hw. lia.
  - now rewrite Hd, Hl.
Qed.

(** ** The record encoders *)

Lemma to_issue_eq (finding : Finding) (s : State) :
  exists issue, to_issue finding s = (Return issue, tick s).
Proof.
  unfold to_issue, bind, get_self, utcnow, time_time, ret. eauto.
Qed.

(** A round of the loop on a block without [block_error] returns, and
    leaves everything but the log as it was: it logs an error for a block of
    an unknown class and nothing for another block.  What it returns depends
    on the block and on [self] alone. *)
Lemma evidence_entry_encodable (self : SupabaseDal) (block : Block) :
  block_error self block = None ->
  exists entry, forall s,
    evidence_entry self block s
    = (Return entry,
       add_logs (if is_other block
                 then [(ERROR, CannotConvertBlock block)] else []) s).
Proof.
  intros H.
  destruct block; simpl in *;
    try (eexists; intros s; rewrite add_logs_nil; reflexivity).
  - destruct (String.eqb text "");
      eexists; intros s; rewrite add_logs_nil; reflexivity.
  - destruct (rindex "."%char filename); [| discriminate].
    eexists; intros s; rewrite add_logs_nil; reflexivity.
  - destruct (callbacks_of _ choices); [discriminate |].
    eexists; intros s; rewrite add_logs_nil; reflexivity.
  - eexists; intros s. unfold bind, logging, ret. reflexivity.
Qed.

(** The loop started from [acc] appends to [acc] what it appends to the
    empty list. *)
Lemma evidence_loop_acc (self : SupabaseDal) (bs : list Block) :
  forall acc s,
    evidence_loop self bs acc s =
      match evidence_loop self bs [] s with
      | (Return sd, s') => (Return (acc ++ sd), s')
      | (Raise e, s') => (Raise e, s')
      end.
Proof.
  induction bs as [| block rest IH]; intros acc s; simpl.
  - unfold ret. now rewrite app_nil_r.
  - unfold bind. destruct (evidence_entry self block s) as [[entry | e] s1];
      [| reflexivity].
    rewrite IH. rewrite (IH (match entry with Some e => [] ++ [e] | None => [] end)).
    destruct (evidence_loop self rest [] s1) as [[sd | e] s2]; [| reflexivity].
    destruct entry; simpl; [now rewrite <- app_assoc | reflexivity].
Qed.

Lemma evidence_loop_app (self : SupabaseDal) (pre post : list Block) :
  forall acc s,
    evidence_loop self (pre ++ post) acc s =
      match evidence_loop self pre acc s with
      | (Return acc', s') => evidence_loop self post acc' s'
      | (Raise e, s') => (Raise e, s')
      end.
Proof.
  induction pre as [| block rest IH]; intros acc s; simpl.
  - reflexivity.
  - unfold bind. destruct (evidence_entry self block s) as [[entry | e] s1];
      [apply IH | reflexivity].
Qed.

Lemma evidence_loop_encodable (self : SupabaseDal) (bs : list Block) :
  first_error self bs = None ->
  exists sd, forall acc s,
    evidence_loop self bs acc s
    = (Return (acc ++ sd),
       add_logs (map (fun b => (ERROR, CannotConvertBlock b))
                   (filter is_other bs)) s).
Proof.
  induction bs as [| block rest IH]; simpl; intros H.
  - exists []. intros acc s. unfold ret.
    now rewrite app_nil_r, add_logs_nil.
  - destruct (block_error self block) eqn:Hb; [discriminate |].
    destruct (IH H) as (sd & Hloop).
    destruct (evidence_entry_encodable self block Hb) as (entry & Hentry).
    exists (match entry with Some e => e :: sd | None => sd end).
    intros acc s. unfold bind. rewrite Hentry, Hloop, add_logs_app.
    destruct (is_other block); simpl;
      (destruct entry; [now rewrite <- app_assoc | reflexivity]).
Qed.

(** [to_evidence] returns for an enrichment without [first_error]: the
    record depends on the object alone, and the only effect is one error
    record per block of an unknown class. *)
Lemma to_evidence_encodable (self : SupabaseDal) (finding_id : json)
    (enrichment : Enrichment) :
  first_error self (blocks enrichment) = None ->
  exists evidence, forall s,
    dal s = self ->
    to_evidence finding_id enrichment s
    = (Return evidence,
       add_logs (map (fun b => (ERROR, CannotConvertBlock b))
                   (filter is_other (blocks enrichment))) s).
Proof.
  intros H. destruct (evidence_loop_encodable self _ H) as (sd & Hloop).
  eexists. intros s Hs.
  unfold to_evidence, bind, get_self, ret. rewrite Hs, Hloop. reflexivity.
Qed.

Lemma evidence_entry_raises (self : SupabaseDal) (block : Block) (s : State)
    (e : exn) :
  block_error self block = Some e ->
  evidence_entry self block s = (Raise e, s).
Proof.
  destruct block; simpl; try discriminate.
  - destruct (rindex "."%char filename); [discriminate |].
    intros H. now injection H as <-.
  - destruct (callbacks_of _ choices); [| discriminate].
    intros H. now injection H as <-.
Qed.

Lemma evidence_loop_not_encodable (self : SupabaseDal) (bs : list Block)
    (e : exn) :
  first_error self bs = Some e ->
  forall acc s, exists s', evidence_loop self bs acc s = (Raise e, s').
Proof.
  induction bs as [| block rest IH]; simpl; [discriminate |].
  intros H acc s. unfold bind.
  destruct (block_error self block) as [e0 |] eqn:Hb.
  - injection H as <-. rewrite (evidence_entry_raises self block s e0 Hb).
    eauto.
  - destruct (evidence_entry_encodable self block Hb) as (entry & ->).
    apply (IH H).
Qed.

(** [to_evidence] returns exactly for the enrichments in which no block has
    an error: every file block has a name with a dot, and every callback is
    one that [create_for_func] takes. *)
Lemma to_evidence_returns_iff (finding_id : json) (enrichment : Enrichment)
    (s : State) :
  (exists evidence s',
     to_evidence finding_id enrichment s = (Return evidence, s'))
  <-> first_error (dal s) (blocks enrichment) = None.
Proof.
  split.
  - intros (ev & s' & H).
    destruct (first_error (dal s) (blocks enrichment)) as [e |] eqn:E;
      [| reflexivity].
    destruct (evidence_loop_not_encodable (dal s) _ e E [] s) as [s1 H1].
    unfold to_evidence, bind, get_self in H. rewrite H1 in H. discriminate.
  - intros E.
    destruct (to_evidence_encodable (dal s) finding_id enrichment E)
      as (ev & H).
    eexists. eexists. now apply H.
Qed.

(** A block of a variant that the encoder does not know is dropped with an
    error record, and the loop goes on with the blocks that follow. *)
Lemma evidence_loop_other (self : SupabaseDal) (type_name : string)
    (rest : list Block) (acc : list json) (s : State) :
  evidence_loop self (OtherBlock type_name :: rest) acc s =
    evidence_loop self rest acc
      (add_logs [(ERROR, CannotConvertBlock (OtherBlock type_name))] s).
Proof. reflexivity. Qed.

(** C3: the encoder raises on a file block whose name has no dot, whatever
    the state: [rindex] finds no dot, the [ValueError] leaves [to_evidence],
    and the divider that follows the file block is not encoded. *)
Theorem to_evidence_raises_without_extension (finding_id : json)
    (contents : list byte) (s : State) :
  to_evidence finding_id
    {| blocks := [FileBlock "README" contents; DividerBlock];
       category := None |} s
  = (Raise (ValueError "substring not found"), s).
Proof. reflexivity. Qed.

(** The [data] of the Evidence record is the serialised sequence that the
    loop built. *)
Lemma to_evidence_data (finding_id : json) (enrichment : Enrichment)
    (s s' : State) (sd : list json) :
  evidence_loop (dal s) (blocks enrichment) [] s = (Return sd, s') ->
  exists evidence,
    to_evidence finding_id enrichment s = (Return evidence, s') /\
    dict_get "data" evidence = Some (JStr (json_dumps (JArr sd))).
Proof.
  intros H. eexists. unfold to_evidence, bind, get_self, ret. rewrite H.
  split; reflexivity.
Qed.

(** C9: a Markdown block with empty text appends nothing.  For an
    enrichment with a Markdown block, [to_evidence] ends in the same way
    whether the text of the block is empty or not: it raises the same
    exception, or it returns twice, in the same state.  When it returns, the
    [data] of the two Evidence records are the serialised sequences that the
    loop built, and the sequence for the empty text is the other one without
    the entry of the Markdown block: one element shorter, the entries before
    and after it unchanged. *)
Theorem empty_markdown_yields_no_entry (finding_id : json)
    (pre post : list Block) (cat : option EnumMember) (text : string)
    (s : State) :
  text <> "" ->
  let full :=
    {| blocks := pre ++ MarkdownBlock text :: post; category := cat |} in
  let emptied :=
    {| blocks := pre ++ MarkdownBlock "" :: post; category := cat |} in
  let entry :=
    JObj [ ("type", JStr "markdown");
           ("data", JStr (to_github_markdown text)) ] in
  evidence_entry (dal s) (MarkdownBlock "") s = (Return None, s) /\
  match to_evidence finding_id full s, to_evidence finding_id emptied s with
  | (Return evidence, s1), (Return evidence0, s0) =>
      s1 = s0 /\
      exists before after,
        evidence_loop (dal s) (blocks full) [] s
          = (Return (before ++ entry :: after), s1) /\
        evidence_loop (dal s) (blocks emptied) [] s
          = (Return (before ++ after), s0) /\
        dict_get "data" evidence
          = Some (JStr (json_dumps (JArr (before ++ entry :: after)))) /\
        dict_get "data" evidence0
          = Some (JStr (json_dumps (JArr (before ++ after)))) /\
        List.length (before ++ entry :: after)
          = S (List.length (before ++ after))
  | (Raise e, s1), (Raise e0, s0) => e = e0 /\ s1 = s0
  | _, _ => False
  end.
Proof.
  intros Htext full emptied entry. split; [reflexivity |].
  unfold to_evidence, bind, get_self. unfold full, emptied. cbn [blocks].
  rewrite !evidence_loop_app.
  destruct (evidence_loop (dal s) pre [] s) as [[acc | e] s1]; [| now split].
  cbn [evidence_loop evidence_entry]. unfold bind.
  apply String.eqb_neq in Htext. rewrite Htext.
  rewrite String.eqb_refl. unfold ret.
  rewrite (evidence_loop_acc (dal s) post (acc ++ _)).
  rewrite (evidence_loop_acc (dal s) post acc).
  destruct (evidence_loop (dal s) post [] s1) as [[sd | e] s2]; [| now split].
  split; [reflexivity |]. exists acc, sd. fold entry.
  rewrite <- !app_assoc. simpl.
  repeat split. rewrite !length_app. simpl. lia.
Qed.

(** C7: the Issue record carries the account id and the cluster of the
    object, every Evidence record that [to_evidence] returns carries the
    account id, and the Service record carries the account id and the
    cluster. *)
Theorem wire_records_carry_tenant (s s' : State) (finding : Finding)
    (finding_id : json) (enrichment : Enrichment) (evidence : Dict)
    (service : ServiceInfo) :
  to_evidence finding_id enrichment s = (Return evidence, s') ->
  (exists issue,
     to_issue finding s = (Return issue, tick s) /\
     dict_get "account_id" issue = Some (JStr (account_id (dal s))) /\
     dict_get "subject_cluster" issue = Some (JStr (cluster (dal s)))) /\
  dict_get "account_id" evidence = Some (JStr (account_id (dal s))) /\
  dict_get "account_id" (to_service (dal s) service)
    = Some (JStr (account_id (dal s))) /\
  dict_get "cluster" (to_service (dal s) service)
    = Some (JStr (cluster (dal s))).
Proof.
  intros H. split; [| split; [| split; reflexivity]].
  - eexists. split; [reflexivity | split; reflexivity].
  - unfold to_evidence, bind, get_self, ret in H.
    destruct (evidence_loop (dal s) (blocks enrichment) [] s) as [[sd | e] s1];
      [| discriminate].
    injection H as <- _. reflexivity.
Qed.

(** C8: [to_issue] returns for every finding, with one entry per field of
    the Issue record.  [priority] is the symbolic name of the severity;
    [source], [category] and [subject_type] are the values of the
    enumeration members, not their names; [start_date] is the reading of the
    clock at the call, in ISO format, and [end_date] is null.  The other
    entries are the attributes of the finding and of its subject. *)
Theorem to_issue_fields (finding : Finding) (s : State) :
  exists issue,
    to_issue finding s = (Return issue, tick s) /\
    map fst issue =
      [ "name"; "account_id"; "priority"; "service_key"; "source";
        "category"; "fingerprint"; "title"; "start_date"; "end_date";
        "description"; "is_failure"; "subject_type"; "subject_name";
        "subject_namespace"; "subject_cluster" ] /\
    dict_get "priority" issue = Some (JStr (enum_name (severity finding))) /\
    dict_get "source" issue = Some (enum_value (source finding)) /\
    dict_get "category" issue = Some (enum_value (finding_type finding)) /\
    dict_get "subject_type" issue
      = Some (enum_value (subject_type (subject finding))) /\
    dict_get "start_date" issue = Some (JStr (isoformat (now s))) /\
    dict_get "end_date" issue = Some JNull /\
    dict_get "name" issue = Some (JStr (aggregation_key finding)) /\
    dict_get "fingerprint" issue = Some (JStr (fingerprint finding)) /\
    dict_get "title" issue = Some (JStr (title finding)) /\
    dict_get "description" issue = Some (opt_str (description finding)) /\
    dict_get "is_failure" issue = Some (JBool (failure finding)) /\
    dict_get "subject_name" issue
      = Some (JStr (subject_name (subject finding))) /\
    dict_get "subject_namespace" issue
      = Some (JStr (subject_namespace (subject finding))) /\
    dict_get "service_key" issue
      = Some (JStr (guess_service_key (subject_name (subject finding))
                      (subject_namespace (subject finding)))).
Proof.
  eexists. split; [reflexivity |]. repeat split.
Qed.

(** ** Persistence *)

Lemma execute_answered (req : Request) (s : State) (res : Response) :
  reply s req = inr res -> execute req s = (Return res, called req s).
Proof. intros H. unfold execute. now rewrite H. Qed.

Lemma execute_raises (req : Request) (s : State) (e : exn) :
  reply s req = inl e -> execute req s = (Raise e, called req s).
Proof. intros H. unfold execute. now rewrite H. Qed.

(** A call on the store that raises leaves the write paths as it is. *)
Lemma persist_service_propagates (service : ServiceInfo) (s : State) (e : exn) :
  let req := Insert SERVICES_TABLE (to_service (dal s) service) true in
  reply s req = inl e ->
  persist_service service s = (Raise e, called req s).
Proof.
  intros req H. unfold persist_service, bind, get_self. fold req.
  now rewrite (execute_raises req s e H).
Qed.

Lemma persist_finding_propagates (finding : Finding) (s : State) (e : exn) :
  exists issue,
    to_issue finding s = (Return issue, tick s) /\
    (reply s (Rpc "insert_finding_v1" issue) = inl e ->
     persist_finding finding s
       = (Raise e, called (Rpc "insert_finding_v1" issue) (tick s))).
Proof.
  destruct (to_issue_eq finding s) as [issue Hi]. exists issue.
  split; [exact Hi |]. intros H.
  unfold persist_finding, bind. rewrite Hi. unfold rpc.
  now rewrite (execute_raises _ (tick s) e H).
Qed.

(** C1: a write that the store answers with a status outside 200 and 201 is
    dropped without an exception.  [persist_finding] returns after that one
    call on the store, an error record for the finding and one run of
    [handle_supabase_error]; nothing is sent again.  [persist_service]
    returns whenever the store answers its call: after the same steps when
    the status is outside 200 and 201, and at once when it is not.  When the
    call on the store raises instead of answering, the exception reaches the
    caller of either method. *)
Theorem rejected_write_is_dropped (s : State) :
  (forall finding : Finding,
     exists issue,
       to_issue finding s = (Return issue, tick s) /\
       forall res,
         reply s (Rpc "insert_finding_v1" issue) = inr res ->
         not_in_200_201 res = true ->
         let s1 :=
           add_logs [(ERROR, FailedPersistFinding finding (data res))]
             (called (Rpc "insert_finding_v1" issue) (tick s)) in
         persist_finding finding s
           = (Return tt, snd (handle_supabase_error s1)) /\
         sent (world (snd (handle_supabase_error s1)))
           = sent (world s) ++ [Rpc "insert_finding_v1" issue] /\
         In (ERROR, FailedPersistFinding finding (data res))
           (log (world (snd (handle_supabase_error s1)))))
  /\
  (forall (finding : Finding) (issue : Dict) (e : exn),
     to_issue finding s = (Return issue, tick s) ->
     reply s (Rpc "insert_finding_v1" issue) = inl e ->
     persist_finding finding s
       = (Raise e, called (Rpc "insert_finding_v1" issue) (tick s)))
  /\
  (forall (service : ServiceInfo) (res : Response),
     let req := Insert SERVICES_TABLE (to_service (dal s) service) true in
     reply s req = inr res ->
     exists s',
       persist_service service s = (Return tt, s') /\
       sent (world s') = sent (world s) ++ [req] /\
       s' = (if not_in_200_201 res
             then snd (handle_supabase_error
                         (add_logs
                            [(ERROR, FailedPersistService service (data res))]
                            (called req s)))
             else called req s) /\
       (not_in_200_201 res = true ->
        In (ERROR, FailedPersistService service (data res)) (log (world s'))))
  /\
  (forall (service : ServiceInfo) (e : exn),
     let req := Insert SERVICES_TABLE (to_service (dal s) service) true in
     reply s req = inl e ->
     persist_service service s = (Raise e, called req s)).
Proof.
  split; [| split; [| split]].
  4: { intros service e. apply persist_service_propagates. }
  2: { intros finding issue e Hi He.
       destruct (persist_finding_propagates finding s e) as (issue' & Hi' & H).
       rewrite Hi in Hi'. injection Hi' as <-. now apply H. }
  - intros finding. destruct (to_issue_eq finding s) as [issue Hi].
    exists issue. split; [exact Hi |]. intros res Hr Hrej s1.
    assert (Hp : persist_finding finding s = handle_supabase_error s1).
    { unfold persist_finding, bind. rewrite Hi. unfold rpc.
      rewrite (execute_answered _ (tick s) res Hr), Hrej. reflexivity. }
    rewrite Hp. split; [| split].
    + now rewrite handle_supabase_error_eq.
    + destruct (handle_supabase_error_store s1) as [Hs _]. now rewrite Hs.
    + apply handle_supabase_error_keeps. simpl. apply in_or_app. right.
      now left.
  - intros service res req Hr.
    assert (Hp : persist_service service s =
                 if not_in_200_201 res
                 then handle_supabase_error
                        (add_logs
                           [(ERROR, FailedPersistService service (data res))]
                           (called req s))
                 else (Return tt, called req s)).
    { unfold persist_service, bind, get_self. fold req.
      rewrite (execute_answered req s res Hr).
      now destruct (not_in_200_201 res). }
    rewrite Hp. destruct (not_in_200_201 res).
    + eexists. split; [| split; [| split; [reflexivity |]]].
      * now rewrite handle_supabase_error_eq.
      * match goal with
        | |- context [handle_supabase_error ?s1] =>
            destruct (handle_supabase_error_store s1) as [Hs _]; now rewrite Hs
        end.
      * intros _. apply handle_supabase_error_keeps. simpl. apply in_or_app.
        right. now left.
    + eexists. split; [reflexivity | split; [reflexivity | split]];
        [reflexivity | discriminate].
Qed.

(** A round that raises ends the loop: the elements that follow are not
    visited. *)
Lemma for_each_raises {A : Type} (body : A -> M unit) (x : A) (rest : list A)
    (s s' : State) (e : exn) :
  body x s = (Raise e, s') ->
  for_each (x :: rest) body s = (Raise e, s').
Proof. intros H. simpl. unfold bind. now rewrite H. Qed.



(** ** Reading the active services *)

Lemma stub_rows_pass (self : SupabaseDal) (table : list ServiceRow) :
  filter (fun row =>
            forallb (passes row)
              [ ("account_id", "eq", JStr (account_id self));
                ("cluster", "eq", JStr (cluster self));
                ("deleted", "eq", JBool false) ])
    (map row_dict table)
  = map row_dict (filter (active_for self) table).
Proof.
  induction table as [| r table IH]; [reflexivity |].
  cbn [map filter]. rewrite IH.
  replace (forallb (passes (row_dict r)) _) with (active_for self r).
  - now destruct (active_for self r).
  - unfold active_for. simpl.
    destruct (String.eqb (row_account_id r) (account_id self)),
      (String.eqb (row_cluster r) (cluster self)), (row_deleted r);
      reflexivity.
Qed.

Lemma services_of_rows (rows : list ServiceRow) (s : State) :
  map_M service_of_row
    (map (project [ "name"; "type"; "namespace"; "classification" ])
       (map row_dict rows)) s
  = (Return (map info_of_row rows), s).
Proof.
  induction rows as [| r rows IH]; [reflexivity |].
  cbn [map map_M]. unfold bind at 1.
  replace (service_of_row _ s) with (Return (info_of_row r), s) by reflexivity.
  unfold bind. now rewrite IH.
Qed.

Lemma get_active_services_answered (s : State) (res : Response) :
  reply s (active_services_query (dal s)) = inr res ->
  status_code res = 200 ->
  get_active_services s
    = bind (lift (py_iter (data res))) (map_M service_of_row)
        (called (active_services_query (dal s)) s).
Proof.
  intros Hr Hst. unfold get_active_services, bind, get_self.
  unfold active_services_query in *.
  rewrite (execute_answered _ s res Hr), Hst. reflexivity.
Qed.

(** C4: [get_active_services] sends one select on the Services table with
    the three filters account_id = the account of the object, cluster = its
    cluster and deleted = false.  When the store answers with a status other
    than 200, an error is logged and an exception is raised to the caller.
    When the store holds [table] and answers the select as [stub_execute]
    does, the call returns the ServiceInfo of exactly the rows of [table]
    with that account, that cluster and deleted = false, in table order. *)
Theorem get_active_services_contract (s : State) :
  let q := active_services_query (dal s) in
  (forall res,
     reply s q = inr res ->
     status_code res <> 200 ->
     exists s',
       get_active_services s
         = (Raise (Exception (FailedGetServices (data res))), s') /\
       sent (world s') = sent (world s) ++ [q] /\
       In (ERROR, FailedGetServices (data res)) (log (world s')))
  /\
  (forall table,
     reply s q = inr (stub_execute table q) ->
     get_active_services s
       = (Return (map info_of_row (filter (active_for (dal s)) table)),
          called q s)).
Proof.
  intros q. unfold active_services_query in q. split.
  - intros res Hr Hst.
    set (s1 := add_logs [(ERROR, FailedGetServices (data res))] (called q s)).
    exists (snd (handle_supabase_error s1)).
    destruct (handle_supabase_error_store s1) as [Hs _].
    split; [| split].
    + unfold get_active_services, bind, get_self. fold q.
      rewrite (execute_answered q s res Hr).
      apply Z.eqb_neq in Hst. rewrite Hst. simpl. fold s1.
      rewrite handle_supabase_error_eq. reflexivity.
    + now rewrite Hs.
    + apply handle_supabase_error_keeps. simpl. apply in_or_app. right.
      now left.
  - intros table Hr.
    rewrite (get_active_services_answered s _ Hr) by reflexivity.
    change (data (stub_execute table q))
      with (JArr (map (project [ "name"; "type"; "namespace"; "classification" ])
                    (filter (fun row =>
                               forallb (passes row)
                                 [ ("account_id", "eq", JStr (account_id (dal s)));
                                   ("cluster", "eq", JStr (cluster (dal s)));
                                   ("deleted", "eq", JBool false) ])
                       (map row_dict table)))).
    rewrite stub_rows_pass. unfold bind, lift, py_iter, ret.
    apply services_of_rows.
Qed.

End Properties.

(** * What the operations keep, and what they never do *)

Section Coverage.

Context {ext : Externals}.

(** ** Frames *)

Lemma evolves_refl (s : State) : evolves s s.
Proof.
  split; try reflexivity.
  - exists []. now rewrite app_nil_r.
  - exists O. simpl. now rewrite app_nil_r.
  - exists []. now rewrite app_nil_r.
Qed.

Lemma evolves_trans (s1 s2 s3 : State) :
  evolves s1 s2 -> evolves s2 s3 -> evolves s1 s3.
Proof.
  intros [C1 K1 S1 A1 T1 [l1 Hs1] [n1 Hl1] [g1 Hg1]]
         [C2 K2 S2 A2 T2 [l2 Hs2] [n2 Hl2] [g2 Hg2]].
  split.
  - now rewrite C2.
  - now rewrite K2.
  - now rewrite S2.
  - now rewrite A2.
  - lia.
  - exists (l1 ++ l2). now rewrite Hs2, Hs1, app_assoc.
  - exists (n1 + n2)%nat. rewrite Hl2, Hl1, repeat_app, app_assoc.
    assert (He : email (dal s2) = email (dal s1))
      by exact (f_equal email C1).
    assert (Hp : password (dal s2) = password (dal s1))
      by exact (f_equal password C1).
    now rewrite He, Hp.
  - exists (g1 ++ g2). now rewrite Hg2, Hg1, app_assoc.
Qed.

Lemma steady_ret {A : Type} (a : A) : steady (ret a).
Proof. intros s. apply evolves_refl. Qed.

Lemma steady_raise {A : Type} (e : exn) : steady (raise (A := A) e).
Proof. intros s. apply evolves_refl. Qed.

Lemma steady_lift {A : Type} (r : exn + A) : steady (lift r).
Proof. destruct r; [apply steady_raise | apply steady_ret]. Qed.

Lemma steady_bind {A B : Type} (m : M A) (k : A -> M B) :
  steady m -> (forall a, steady (k a)) -> steady (bind m k).
Proof.
  intros Hm Hk s. unfold bind. specialize (Hm s).
  destruct (m s) as [[a | e] s1]; simpl in Hm; [| exact Hm].
  exact (evolves_trans _ _ _ Hm (Hk a s1)).
Qed.

Lemma steady_try_except {A : Type} (m : M A) (h : exn -> M A) :
  steady m -> (forall e, steady (h e)) -> steady (try_except m h).
Proof.
  intros Hm Hh s. unfold try_except. specialize (Hm s).
  destruct (m s) as [[a | e] s1]; simpl in Hm; [exact Hm |].
  exact (evolves_trans _ _ _ Hm (Hh e s1)).
Qed.

Lemma steady_for_each {A : Type} (body : A -> M unit) (xs : list A) :
  (forall x, steady (body x)) -> steady (for_each xs body).
Proof.
  intros Hb. induction xs as [| x rest IH]; simpl.
  - apply steady_ret.
  - apply steady_bind; [apply Hb | intros _; exact IH].
Qed.

Lemma steady_map_M {A B : Type} (f : A -> M B) (xs : list A) :
  (forall x, steady (f x)) -> steady (map_M f xs).
Proof.
  intros Hf. induction xs as [| x rest IH]; simpl.
  - apply steady_ret.
  - apply steady_bind; [apply Hf | intros y].
    apply steady_bind; [exact IH | intros ys; apply steady_ret].
Qed.

Lemma steady_get_self : steady get_self.
Proof. intros s. apply evolves_refl. Qed.

Lemma steady_time_time : steady time_time.
Proof.
  intros s. split; simpl; try reflexivity.
  - lia.
  - exists []. now rewrite app_nil_r.
  - exists O. simpl. now rewrite app_nil_r.
  - exists []. now rewrite app_nil_r.
Qed.

Lemma steady_logging (lvl : Level) (msg : Message) : steady (logging lvl msg).
Proof.
  intros s. split; simpl; try reflexivity.
  - exists []. now rewrite app_nil_r.
  - exists O. simpl. now rewrite app_nil_r.
  - eexists. reflexivity.
Qed.

Lemma steady_execute (req : Request) : steady (execute req).
Proof.
  intros s. unfold execute.
  assert (H : evolves s (called req s)).
  { split; simpl; try reflexivity.
    - eexists. reflexivity.
    - exists O. simpl. now rewrite app_nil_r.
    - exists []. now rewrite app_nil_r. }
  now destruct (reply s req).
Qed.

Lemma steady_sign_in : steady sign_in.
Proof.
  intros s.
  destruct (Z.lt_ge_cases (sign_in_time (dal s) + SUPABASE_LOGIN_RATE_LIMIT_SEC)
              (now s)) as [H | H].
  - rewrite (sign_in_due s H). split; simpl; try reflexivity.
    + lia.
    + exists []. now rewrite app_nil_r.
    + exists 1%nat. reflexivity.
    + eexists. reflexivity.
  - rewrite (sign_in_skipped s H). apply steady_time_time.
Qed.

Lemma steady_logging_args (lvl : Level) (template : string)
    (args : list json) (msg : Message) :
  steady (logging_args lvl template args msg).
Proof.
  unfold logging_args. destruct args; [apply steady_logging |].
  destruct (Nat.eqb _ _); [apply steady_logging | apply steady_ret].
Qed.

Lemma steady_handle_supabase_error : steady handle_supabase_error.
Proof.
  apply steady_try_except; [apply steady_sign_in |].
  intros e. apply steady_logging_args.
Qed.

Lemma steady_evidence_entry (self : SupabaseDal) (block : Block) :
  steady (evidence_entry self block).
Proof.
  destruct block; simpl; try apply steady_ret.
  - destruct (String.eqb text ""); apply steady_ret.
  - destruct (rindex "."%char filename); [apply steady_ret | apply steady_raise].
  - apply steady_bind; [apply steady_lift | intros; apply steady_ret].
  - apply steady_bind; [apply steady_logging | intros; apply steady_ret].
Qed.

Lemma steady_evidence_loop (self : SupabaseDal) (bs : list Block) :
  forall acc, steady (evidence_loop self bs acc).
Proof.
  induction bs as [| block rest IH]; intros acc; simpl.
  - apply steady_ret.
  - apply steady_bind; [apply steady_evidence_entry | intros entry; apply IH].
Qed.

Lemma steady_to_evidence (finding_id : json) (enrichment : Enrichment) :
  steady (to_evidence finding_id enrichment).
Proof.
  unfold to_evidence.
  apply steady_bind; [apply steady_get_self | intros self].
  apply steady_bind; [apply steady_evidence_loop | intros sd; apply steady_ret].
Qed.

Ltac steady_step :=
  first
    [ apply steady_ret | apply steady_raise | apply steady_lift
    | apply steady_get_self | apply steady_time_time | apply steady_logging
    | apply steady_execute | apply steady_handle_supabase_error
    | apply steady_to_evidence
    | apply steady_for_each; intros ?
    | apply steady_map_M; intros ?
    | match goal with
      | |- steady (if ?b then _ else _) => destruct b
      end
    | apply steady_bind; [| intros ?]
    | progress unfold persist_enrichment, service_of_row, rpc ].

(** X1: whatever the store and the authentication service do, and whether
    the call returns or raises, [persist_finding], [persist_service],
    [get_active_services] and [handle_supabase_error] keep every attribute of
    the object but [sign_in_time], only append to the log and to the traces
    of store calls and of login handshakes, and make every handshake with the
    email and the password of the object. *)
Theorem operations_evolve :
  (forall finding, steady (persist_finding finding)) /\
  (forall service, steady (persist_service service)) /\
  steady get_active_services /\
  steady handle_supabase_error.
Proof.
  split; [| split; [| split]].
  - intros finding. unfold persist_finding, to_issue, utcnow.
    repeat steady_step.
  - intros service. unfold persist_service. repeat steady_step.
  - unfold get_active_services. repeat steady_step.
  - apply steady_handle_supabase_error.
Qed.

(** ** The calls of [persist_finding] *)

Lemma sends_only_refl (P : Request -> Prop) (s : State) : sends_only P 0 s s.
Proof.
  repeat split. exists []. rewrite app_nil_r. repeat split; auto.
Qed.

Lemma sends_only_trans (P : Request -> Prop) (n m : nat) (s1 s2 s3 : State) :
  sends_only P n s1 s2 -> sends_only P m s2 s3 -> sends_only P (n + m) s1 s3.
Proof.
  intros (D1 & L1 & T1 & r1 & S1 & N1 & F1) (D2 & L2 & T2 & r2 & S2 & N2 & F2).
  split; [congruence | split; [congruence | split; [congruence |]]].
  exists (r1 ++ r2). split; [| split].
  - now rewrite S2, S1, app_assoc.
  - rewrite length_app. lia.
  - apply Forall_app. now split.
Qed.

Lemma sends_only_le (P : Request -> Prop) (n m : nat) (s s' : State) :
  (n <= m)%nat -> sends_only P n s s' -> sends_only P m s s'.
Proof.
  intros H (D & L & T & r & S1 & N & F).
  repeat split; auto. exists r. repeat split; auto. lia.
Qed.

Lemma sends_only_logs (P : Request -> Prop) (l : list LogRecord) (s : State) :
  sends_only P 0 s (add_logs l s).
Proof.
  repeat split. exists []. simpl. rewrite app_nil_r. repeat split; auto.
Qed.

(** A computation that, returning or raising, leaves everything but the log
    and at most [n] calls for Evidence inserts. *)
Definition quiet {A : Type} (n : nat) (m : M A) : Prop :=
  forall s, sends_only is_enrichment_insert n s (snd (m s)).

Lemma quiet_ret {A : Type} (a : A) : quiet 0 (ret a).
Proof. intros s. apply sends_only_refl. Qed.

Lemma quiet_lift {A : Type} (r : exn + A) : quiet 0 (lift r).
Proof. intros s. destruct r; apply sends_only_refl. Qed.

Lemma quiet_logging (lvl : Level) (msg : Message) : quiet 0 (logging lvl msg).
Proof. intros s. apply sends_only_logs. Qed.

Lemma quiet_bind {A B : Type} (n k : nat) (m : M A) (f : A -> M B) :
  quiet n m -> (forall a, quiet k (f a)) -> quiet (n + k) (bind m f).
Proof.
  intros Hm Hf s. unfold bind. specialize (Hm s).
  destruct (m s) as [[a | e] s1]; simpl in Hm.
  - exact (sends_only_trans _ _ _ _ _ _ Hm (Hf a s1)).
  - apply (sends_only_le _ n); [lia | exact Hm].
Qed.

(** The encoder, returning or raising, only appends to the log. *)
Lemma evidence_loop_logs_only (self : SupabaseDal) (bs : list Block) :
  forall acc s, exists l, snd (evidence_loop self bs acc s) = add_logs l s.
Proof.
  induction bs as [| block rest IH]; intros acc s; simpl.
  - exists []. now rewrite add_logs_nil.
  - unfold bind. destruct (block_error self block) as [e |] eqn:Hb.
    + rewrite (evidence_entry_raises self block s e Hb).
      exists []. now rewrite add_logs_nil.
    + destruct (evidence_entry_encodable self block Hb) as (entry & ->).
      match goal with
      | |- context [evidence_loop self rest ?a (add_logs ?l s)] =>
          destruct (IH a (add_logs l s)) as [l' ->]; exists (l ++ l')
      end.
      apply add_logs_app.
Qed.

Lemma quiet_to_evidence (finding_id : json) (enrichment : Enrichment) :
  quiet 0 (to_evidence finding_id enrichment).
Proof.
  intros s. unfold to_evidence, bind, get_self, ret.
  destruct (evidence_loop_logs_only (dal s) (blocks enrichment) [] s)
    as [l Hl].
  destruct (evidence_loop (dal s) (blocks enrichment) [] s) as [[sd | e] s1];
    simpl in *; rewrite Hl; apply sends_only_logs.
Qed.

Lemma quiet_insert_enrichment (evidence : Dict) :
  quiet 1 (rpc "insert_enrichment_v1" evidence).
Proof.
  intros s. unfold rpc, execute.
  assert (H : sends_only is_enrichment_insert 1 s
                (called (Rpc "insert_enrichment_v1" evidence) s)).
  { repeat split. eexists. split; [reflexivity | split; [simpl; lia |]].
    constructor; [| constructor]. now exists evidence. }
  now destruct (reply s (Rpc "insert_enrichment_v1" evidence)).
Qed.

Lemma quiet_persist_enrichment (finding : Finding) (finding_id : json)
    (enrichment : Enrichment) :
  quiet 1 (persist_enrichment finding finding_id enrichment).
Proof.
  unfold persist_enrichment.
  apply (quiet_bind 0 1); [apply quiet_to_evidence | intros evidence].
  apply (quiet_bind 1 0); [apply quiet_insert_enrichment | intros res].
  destruct (not_in_200_201 res); [apply quiet_logging | apply quiet_ret].
Qed.

Lemma quiet_for_each {A : Type} (body : A -> M unit) (xs : list A) :
  (forall x, quiet 1 (body x)) -> quiet (List.length xs) (for_each xs body).
Proof.
  intros Hb. induction xs as [| x rest IH]; simpl.
  - apply quiet_ret.
  - apply (quiet_bind 1 (List.length rest)); [apply Hb | intros _; exact IH].
Qed.

(** What [persist_finding] does once the Issue was accepted. *)
Lemma quiet_after_issue (finding : Finding) (res : Response) :
  quiet (List.length (enrichments finding))
    (res_data <- lift (getitem0 (data res)) ;;
     finding_id <- lift (py_get "id" res_data) ;;
     new_finding <- lift (py_get "inserted" res_data) ;;
     (if negb (truthy new_finding)
      then logging INFO (FindingAlreadyExists finding)
      else ret tt) ;;
     for_each (enrichments finding) (persist_enrichment finding finding_id)).
Proof.
  apply (quiet_bind 0 _); [apply quiet_lift | intros res_data].
  apply (quiet_bind 0 _); [apply quiet_lift | intros finding_id].
  apply (quiet_bind 0 _); [apply quiet_lift | intros new_finding].
  apply (quiet_bind 0 _).
  - destruct (negb (truthy new_finding)); [apply quiet_logging | apply quiet_ret].
  - intros _. apply quiet_for_each. intros e. apply quiet_persist_enrichment.
Qed.

(** X2: in every run of [persist_finding], the first call on the store is
    the Issue insert, made once, and every other call is an Evidence insert,
    at most one per enrichment; the table interface is never used.  When the
    Issue is accepted, no login handshake is made and the object is left as
    it was, whatever happens to the enrichments: a rejected enrichment does
    not start the recovery of the session. *)
Theorem persist_finding_calls (finding : Finding) (s : State) :
  let s' := snd (persist_finding finding s) in
  exists issue reqs,
    to_issue finding s = (Return issue, tick s) /\
    sent (world s') = sent (world s) ++ Rpc "insert_finding_v1" issue :: reqs /\
    (List.length reqs <= List.length (enrichments finding))%nat /\
    Forall is_enrichment_insert reqs /\
    (forall res,
       reply s (Rpc "insert_finding_v1" issue) = inr res ->
       not_in_200_201 res = false ->
       logins (world s') = logins (world s) /\ dal s' = dal s).
Proof.
  intros s'. destruct (to_issue_eq finding s) as [issue Hi].
  exists issue. unfold s'. clear s'.
  set (req := Rpc "insert_finding_v1" issue).
  destruct (reply s req) as [e | res] eqn:Hr.
  - destruct (persist_finding_propagates finding s e) as (issue' & Hi' & H).
    rewrite Hi in Hi'. injection Hi' as <-. rewrite (H Hr).
    exists []. split; [exact Hi | split; [reflexivity |]].
    split; [simpl; lia | split; [constructor |]].
    intros res Hres. discriminate Hres.
  - destruct (not_in_200_201 res) eqn:Hrej.
    + set (s1 := add_logs [(ERROR, FailedPersistFinding finding (data res))]
                   (called req (tick s))).
      assert (Hp : persist_finding finding s = handle_supabase_error s1).
      { unfold persist_finding, bind. rewrite Hi. unfold rpc. fold req.
        rewrite (execute_answered req (tick s) res Hr), Hrej. reflexivity. }
      rewrite Hp. destruct (handle_supabase_error_store s1) as [Hs _].
      exists []. split; [exact Hi | split; [now rewrite Hs |]].
      split; [simpl; lia | split; [constructor |]].
      intros res' Hres'. injection Hres' as <-. congruence.
    + pose proof (quiet_after_issue finding res (called req (tick s)))
        as (Hd & Hl & _ & reqs & Hs & Hn & Hf).
      assert (Hp : persist_finding finding s =
                   (res_data <- lift (getitem0 (data res)) ;;
                    finding_id <- lift (py_get "id" res_data) ;;
                    new_finding <- lift (py_get "inserted" res_data) ;;
                    (if negb (truthy new_finding)
                     then logging INFO (FindingAlreadyExists finding)
                     else ret tt) ;;
                    for_each (enrichments finding)
                      (persist_enrichment finding finding_id))
                     (called req (tick s))).
      { unfold persist_finding. unfold bind at 1. rewrite Hi.
        unfold bind at 1. unfold rpc. fold req.
        rewrite (execute_answered req (tick s) res Hr), Hrej. reflexivity. }
      rewrite Hp. exists reqs.
      split; [exact Hi | split; [| split; [exact Hn | split; [exact Hf |]]]].
      * rewrite Hs. simpl. now rewrite <- app_assoc.
      * intros _ _ _. now rewrite Hl, Hd.
Qed.

(** ** Dictionaries *)

Lemma dict_get_set_same (k : string) (v : json) (d : Dict) :
  dict_get k (dict_set k v d) = Some v.
Proof.
  induction d as [| [k' v'] rest IH]; simpl.
  - now rewrite String.eqb_refl.
  - destruct (String.eqb k' k) eqn:E; simpl; now rewrite E.
Qed.

Lemma dict_get_set_other (k k' : string) (v : json) (d : Dict) :
  k' <> k -> dict_get k' (dict_set k v d) = dict_get k' d.
Proof.
  intros Hne. induction d as [| [k0 v0] rest IH]; simpl.
  - apply String.eqb_neq in Hne. rewrite String.eqb_sym. now rewrite Hne.
  - destruct (String.eqb k0 k) eqn:E; simpl.
    + apply String.eqb_eq in E. subst k0.
      apply String.eqb_neq in Hne. rewrite String.eqb_sym. now rewrite Hne.
    + now rewrite IH.
Qed.

(** Assigning to a key neither adds a second entry for a key nor reorders
    the keys that were there. *)
Lemma dict_set_keys (k : string) (v : json) (d : Dict) :
  map fst (dict_set k v d)
  = if has_column k d then map fst d else map fst d ++ [k].
Proof.
  unfold has_column. induction d as [| [k' v'] rest IH]; simpl; [reflexivity |].
  destruct (String.eqb k' k) eqn:E; simpl; [reflexivity |].
  rewrite IH. now destruct (dict_get k rest).
Qed.

(** ** The entries of the structured data *)

Lemma evidence_entry_spec (self : SupabaseDal) (block : Block)
    (entry : option json) (s s1 : State) :
  evidence_entry self block s = (Return entry, s1) ->
  s1 = add_logs (if is_other block
                 then [(ERROR, CannotConvertBlock block)] else []) s /\
  List.length (match entry with Some e => [e] | None => [] end)
    = (if yields block then 1%nat else 0%nat) /\
  (forall e, entry = Some e -> typed_entry e).
Proof.
  destruct block; simpl; unfold ret, bind, logging, raise;
    try (intros H; injection H as <- <-; rewrite add_logs_nil;
         repeat split; intros e He; injection He as <-;
         eexists; eexists; split; reflexivity).
  - destruct (String.eqb text ""); intros H; injection H as <- <-;
      rewrite add_logs_nil; repeat split; intros e He;
      [discriminate | injection He as <-; eexists; eexists; split; reflexivity].
  - destruct (rindex "."%char filename); [| discriminate].
    intros H; injection H as <- <-; rewrite add_logs_nil.
    repeat split. intros e He. injection He as <-.
    eexists; eexists; split; reflexivity.
  - destruct (callbacks_of _ choices); [discriminate |].
    simpl. intros H; injection H as <- <-; rewrite add_logs_nil.
    repeat split. intros e He. injection He as <-.
    eexists; eexists; split; reflexivity.
  - intros H; injection H as <- <-. repeat split. discriminate.
Qed.

(** X3: when the loop of [to_evidence] returns, the structured data hold
    one entry for every block that is neither a Markdown block with empty
    text nor a block of an unknown class; every entry is an object with a
    string under ["type"]; and the only effect is one error record per block
    of an unknown class, in the order of the blocks. *)
Theorem structured_data_entries (self : SupabaseDal) (bs : list Block)
    (s s' : State) (sd : list json) :
  evidence_loop self bs [] s = (Return sd, s') ->
  List.length sd = List.length (filter yields bs) /\
  Forall typed_entry sd /\
  s' = add_logs (map (fun b => (ERROR, CannotConvertBlock b))
                   (filter is_other bs)) s.
Proof.
  revert s sd. induction bs as [| block rest IH]; intros s sd H.
  - injection H as <- <-. rewrite add_logs_nil. repeat split. constructor.
  - simpl in H. unfold bind in H.
    destruct (evidence_entry self block s) as [[entry | e] s1] eqn:He;
      [| discriminate].
    destruct (evidence_entry_spec self block entry s s1 He) as (Hs1 & Hn & Ht).
    rewrite evidence_loop_acc in H.
    destruct (evidence_loop self rest [] s1) as [[sd0 | e] s2] eqn:Hrest;
      [| discriminate].
    injection H as <- <-.
    destruct (IH s1 sd0 Hrest) as (Hlen & Hall & Hs2).
    split; [| split].
    + simpl. rewrite length_app, Hlen.
      destruct entry, (yields block); simpl in *; try discriminate;
        reflexivity.
    + apply Forall_app. split; [| exact Hall].
      destruct entry; constructor; [now apply Ht | constructor].
    + rewrite Hs2, Hs1. simpl.
      destruct (is_other block); simpl.
      * apply add_logs_app.
      * now rewrite add_logs_nil.
Qed.

(** ** File blocks *)

Lemma append_String (a : ascii) (s1 s2 : string) :
  String.append (String a s1) s2 = String a (String.append s1 s2).
Proof. reflexivity. Qed.

(** The index that [rindex] finds splits the string around the last
    occurrence of the character. *)
Lemma rindex_split (c : ascii) (s : string) (i : nat) :
  rindex c s = Some i ->
  s = String.append (substring 0 i s) (String c (slice_from (S i) s)) /\
  rindex c (slice_from (S i) s) = None.
Proof.
  revert i. induction s as [| a rest IH]; simpl; intros i H; [discriminate |].
  destruct (rindex c rest) as [k |] eqn:E.
  - injection H as <-. destruct (IH k eq_refl) as [Hsplit Hnone].
    split; [| exact Hnone].
    simpl. f_equal. exact Hsplit.
  - destruct (Ascii.eqb a c) eqn:Ea; [| discriminate].
    injection H as <-. apply Ascii.eqb_eq in Ea. subst a.
    split; [reflexivity | exact E].
Qed.

(** X4: the entry of a file block is tagged with the extension of the file:
    the file name is some stem, a dot and the tag, and the tag holds no dot;
    the data are the encoded contents.  Nothing is logged. *)
Theorem file_block_entry (self : SupabaseDal) (filename : string)
    (contents : list byte) (entry : option json) (s s' : State) :
  evidence_entry self (FileBlock filename contents) s = (Return entry, s') ->
  exists stem tag,
    filename = String.append stem (String "."%char tag) /\
    rindex "."%char tag = None /\
    entry = Some (JObj [ ("type", JStr tag);
                         ("data", JStr (b64encode_str contents)) ]) /\
    s' = s.
Proof.
  simpl. destruct (rindex "."%char filename) as [i |] eqn:E; [| discriminate].
  intros H. injection H as <- <-.
  destruct (rindex_split _ _ _ E) as [Hsplit Hnone].
  exists (substring 0 i filename), (slice_from (S i) filename).
  repeat split; assumption.
Qed.

(** ** Callback blocks *)

Lemma callbacks_of_returns (context : string)
    (choices : list (string * Callback)) (callbacks : list json) :
  callbacks_of context choices = inr callbacks ->
  Forall2 (fun choice callback =>
             exists token,
               create_for_func_json (snd choice) context (fst choice)
                 = inr token /\
               callback = JObj [ ("text", JStr (fst choice));
                                 ("callback", JStr token) ])
    choices callbacks.
Proof.
  revert callbacks.
  induction choices as [| [text callback] rest IH]; simpl; intros cbs H.
  - injection H as <-. constructor.
  - destruct (create_for_func_json callback context text) as [e | token] eqn:E;
      [discriminate |].
    destruct (callbacks_of context rest) as [e | cbs0]; [discriminate |].
    injection H as <-. constructor; [| now apply IH].
    now exists token.
Qed.

Lemma callbacks_of_raises (context : string)
    (choices : list (string * Callback)) (e : exn) :
  callbacks_of context choices = inl e ->
  exists pre choice post,
    choices = pre ++ choice :: post /\
    create_for_func_json (snd choice) context (fst choice) = inl e /\
    Forall (fun c => exists token,
                       create_for_func_json (snd c) context (fst c)
                         = inr token) pre.
Proof.
  induction choices as [| [text callback] rest IH]; simpl; intros H;
    [discriminate |].
  destruct (create_for_func_json callback context text) as [e0 | token] eqn:E.
  - injection H as <-. exists [], (text, callback), rest.
    repeat split; [exact E | constructor].
  - destruct (callbacks_of context rest) as [e0 | cbs0]; [| discriminate].
    injection H as <-.
    destruct (IH eq_refl) as (pre & choice & post & -> & Hc & Hpre).
    exists ((text, callback) :: pre), choice, post.
    repeat split; [exact Hc |]. constructor; [| exact Hpre].
    now exists token.
Qed.

(** X5: the callbacks of a callback block are created with one serialised
    context, in which ["target_id"] and ["sink_name"] are those of the
    object, whatever the block held under these keys, and every other key is
    as in the context of the block.  When the round of the loop returns, its
    entry holds one callback per choice, in the order of the choices, each
    with the text of its choice and the token that [create_for_func] gave
    for it, and nothing was logged.  When the round raises, it raises what
    [create_for_func] raised for the first choice that it did not take. *)
Theorem callback_block_entry (self : SupabaseDal)
    (choices : list (string * Callback)) (context : Dict) (s : State) :
  exists context',
    dict_get "target_id" context' = Some (JStr (target_id self)) /\
    dict_get "sink_name" context' = Some (JStr (sink_name self)) /\
    (forall k, k <> "target_id" -> k <> "sink_name" ->
               dict_get k context' = dict_get k context) /\
    (forall entry s',
       evidence_entry self (CallbackBlock choices context) s
         = (Return entry, s') ->
       s' = s /\
       exists callbacks,
         entry = Some (JObj [ ("type", JStr "callbacks");
                              ("data", JArr callbacks) ]) /\
         Forall2 (fun choice callback =>
                    exists token,
                      create_for_func_json (snd choice)
                        (json_dumps (JObj context')) (fst choice)
                        = inr token /\
                      callback = JObj [ ("text", JStr (fst choice));
                                        ("callback", JStr token) ])
           choices callbacks) /\
    (forall e s',
       evidence_entry self (CallbackBlock choices context) s
         = (Raise e, s') ->
       s' = s /\
       exists pre choice post,
         choices = pre ++ choice :: post /\
         create_for_func_json (snd choice) (json_dumps (JObj context'))
           (fst choice) = inl e /\
         Forall (fun c => exists token,
                            create_for_func_json (snd c)
                              (json_dumps (JObj context')) (fst c)
                              = inr token) pre).
Proof.
  exists (callback_context self context). unfold callback_context.
  split; [| split; [| split; [| split]]].
  - rewrite dict_get_set_other by discriminate. apply dict_get_set_same.
  - apply dict_get_set_same.
  - intros k H1 H2. now rewrite !dict_get_set_other.
  - intros entry s'. simpl. unfold bind, callback_context.
    destruct (callbacks_of _ choices) as [e | cbs] eqn:E; simpl;
      [discriminate |].
    intros H. injection H as <- <-. split; [reflexivity |].
    exists cbs. split; [reflexivity |]. now apply callbacks_of_returns.
  - intros e s'. simpl. unfold bind, callback_context.
    destruct (callbacks_of _ choices) as [e0 | cbs] eqn:E; simpl;
      [| discriminate].
    intros H. injection H as <- <-. split; [reflexivity |].
    now apply callbacks_of_raises.
Qed.

(** ** The outcome of the encoder *)

(** X6: whether it returns or raises, [to_evidence] only appends to the
    log; and it raises the error of the first block that has one: the
    [ValueError] of a file block whose name has no dot, or what
    [create_for_func] raised for a callback of a callback block. *)
Theorem to_evidence_outcome (finding_id : json) (enrichment : Enrichment)
    (s : State) :
  (exists l, snd (to_evidence finding_id enrichment s) = add_logs l s) /\
  (forall e,
     first_error (dal s) (blocks enrichment) = Some e ->
     fst (to_evidence finding_id enrichment s) = Raise e).
Proof.
  destruct (evidence_loop_logs_only (dal s) (blocks enrichment) [] s) as [l Hl].
  split.
  - exists l. unfold to_evidence, bind, get_self, ret.
    now destruct (evidence_loop (dal s) (blocks enrichment) [] s)
      as [[sd | e] s1].
  - intros e E.
    destruct (evidence_loop_not_encodable (dal s) _ e E [] s) as [s1 H1].
    unfold to_evidence, bind, get_self. now rewrite H1.
Qed.

(** ** Services written and read *)

(** X7: the record that [to_service] writes for a service is read back by
    [get_active_services] as the same service, marked as not deleted, also
    when only the four selected columns are returned; and the record passes
    the three filters of the query of the same object exactly when the
    service is not deleted. *)
Theorem service_round_trip (self : SupabaseDal) (service : ServiceInfo)
    (s : State) :
  let back :=
    {| service_name := service_name service;
       service_type := service_type service;
       service_namespace := service_namespace service;
       classification := classification service;
       deleted := false |} in
  service_of_row (JObj (to_service self service)) s = (Return back, s) /\
  service_of_row
    (project [ "name"; "type"; "namespace"; "classification" ]
       (to_service self service)) s = (Return back, s) /\
  forallb (passes (to_service self service))
    [ ("account_id", "eq", JStr (account_id self));
      ("cluster", "eq", JStr (cluster self));
      ("deleted", "eq", JBool false) ]
  = negb (deleted service).
Proof.
  intros back. split; [reflexivity | split; [reflexivity |]].
  simpl. rewrite !String.eqb_refl. now destruct (deleted service).
Qed.

Lemma service_of_row_spec (row : json) (s : State) :
  (forall info s', service_of_row row s = (Return info, s') ->
                   s' = s /\ read_from row info) /\
  (forall e s', service_of_row row s = (Raise e, s') -> s' = s) /\
  (row_ok row = false -> exists e, service_of_row row s = (Raise e, s)).
Proof.
  unfold service_of_row, bind, read_from, row_ok, has_column.
  destruct row; simpl;
    try (split; [discriminate | split; [| eexists; reflexivity]];
         intros e s' H; now injection H as _ <-).
  destruct (dict_get "name" kvs) as [n |]; simpl;
    [| split; [discriminate | split; [| eexists; reflexivity]];
       intros e s' H; now injection H as _ <-].
  destruct (dict_get "type" kvs) as [t |]; simpl;
    [| split; [discriminate | split; [| eexists; reflexivity]];
       intros e s' H; now injection H as _ <-].
  destruct (dict_get "namespace" kvs) as [ns |]; simpl;
    [| split; [discriminate | split; [| eexists; reflexivity]];
       intros e s' H; now injection H as _ <-].
  destruct (dict_get "classification" kvs) as [c |]; simpl;
    [| split; [discriminate | split; [| eexists; reflexivity]];
       intros e s' H; now injection H as _ <-].
  split; [| split; [discriminate | discriminate]].
  intros info s' H. injection H as <- <-. simpl.
  repeat split; intros x Hx; now injection Hx as <-.
Qed.

Lemma services_of_rows_spec (rows : list json) (s : State) :
  snd (map_M service_of_row rows s) = s /\
  (forall l, fst (map_M service_of_row rows s) = Return l ->
             Forall2 read_from rows l) /\
  (forallb row_ok rows = false ->
   exists e, fst (map_M service_of_row rows s) = Raise e).
Proof.
  induction rows as [| row rest IH]; simpl.
  - split; [reflexivity | split; [| discriminate]].
    intros l H. injection H as <-. constructor.
  - destruct (service_of_row_spec row s) as (Hret & Hraise & Hbad).
    destruct IH as (IHs & IHret & IHbad).
    unfold bind.
    destruct (service_of_row row s) as [[info | e] s1] eqn:E.
    + destruct (Hret info s1 eq_refl) as [-> Hread].
      destruct (map_M service_of_row rest s) as [[l | e] s2]; simpl in *;
        subst s2.
      * split; [reflexivity | split].
        -- intros l0 H. injection H as <-. constructor; [exact Hread |].
           now apply IHret.
        -- intros Hb. destruct Hread as [Hok _]. rewrite Hok in Hb.
           destruct (IHbad Hb) as [e He]. discriminate.
      * split; [reflexivity | split; [discriminate |]].
        intros _. now exists e.
    + rewrite (Hraise e s1 eq_refl). simpl.
      split; [reflexivity | split; [discriminate |]].
      intros _. now exists e.
Qed.

(** X8: when the store answers the query with status 200 and a list of
    rows, [get_active_services] makes no other effect than that one call: it
    logs nothing and does not touch the session, also when it raises.  It
    raises when a row is not an object with the columns name, type,
    namespace and classification; when it returns, it returns one service
    per row, in the order of the rows, not marked as deleted, whose
    attributes are the strings of these columns. *)
Theorem get_active_services_reads_rows (s : State) (res : Response)
    (rows : list json) :
  reply s (active_services_query (dal s)) = inr res ->
  status_code res = 200 ->
  data res = JArr rows ->
  snd (get_active_services s) = called (active_services_query (dal s)) s /\
  (forall l, fst (get_active_services s) = Return l ->
             Forall2 read_from rows l) /\
  (forallb row_ok rows = false ->
   exists e, fst (get_active_services s) = Raise e).
Proof.
  intros Hr Hst Hdata.
  rewrite (get_active_services_answered s res Hr Hst), Hdata.
  unfold bind, lift, py_iter, ret.
  exact (services_of_rows_spec rows (called (active_services_query (dal s)) s)).
Qed.

(** ** An accepted Issue without a row *)

(** X9: when the store accepts the Issue but the data of the answer do not
    start with an object (an empty list, null, a list of something else),
    [persist_finding] raises after that one call: no enrichment is encoded
    or sent, nothing is logged, and no recovery is run. *)
Theorem persist_finding_needs_row (finding : Finding) (s : State)
    (res : Response) (issue : Dict) (e : exn) :
  to_issue finding s = (Return issue, tick s) ->
  reply s (Rpc "insert_finding_v1" issue) = inr res ->
  not_in_200_201 res = false ->
  inserted_row res = inl e ->
  persist_finding finding s
    = (Raise e, called (Rpc "insert_finding_v1" issue) (tick s)).
Proof.
  intros Hi Hr Hok Hrow.
  unfold persist_finding. unfold bind at 1. rewrite Hi.
  unfold bind at 1. unfold rpc.
  rewrite (execute_answered _ (tick s) res Hr), Hok.
  unfold inserted_row in Hrow. unfold bind.
  destruct (getitem0 (data res)) as [e0 | row]; simpl.
  - now injection Hrow as <-.
  - destruct row; try discriminate; injection Hrow as <-; reflexivity.
Qed.

(** ** The constructor and the recovery *)

(** X10: when the constructor of the client raises, the constructor of the
    object raises the same exception before it reads the clock or signs in.
    Otherwise it makes its login handshake exactly when the clock reads more
    than the minimum interval: it then raises what the handshake raises, and
    the object holds the time of the second reading; on a clock that reads
    no more than the interval it returns an object that never signed in. *)
Theorem init_outcome (u k acct em pw sink cl : string) (w : World) :
  let r := __init__ u k acct em pw sink cl w in
  match new_client_error u k with
  | Some e => fst r = Raise e /\ world (snd r) = w
  | None =>
      if SUPABASE_LOGIN_RATE_LIMIT_SEC <? clock w (ticks w)
      then fst r = match auth w (List.length (logins w)) with
                   | None => Return tt
                   | Some e => Raise e
                   end /\
           logins (world (snd r)) = logins w ++ [(em, pw)] /\
           sign_in_time (dal (snd r)) = clock w (S (ticks w))
      else fst r = Return tt /\
           logins (world (snd r)) = logins w /\
           sign_in_time (dal (snd r)) = 0
  end.
Proof.
  intros r. unfold r, __init__, new_client, bind.
  destruct (new_client_error u k) as [e |]; [now split |].
  unfold ret.
  destruct (SUPABASE_LOGIN_RATE_LIMIT_SEC <? clock w (ticks w)) eqn:E.
  - apply Z.ltb_lt in E. rewrite sign_in_due; [| exact E].
    repeat split.
  - apply Z.ltb_ge in E. rewrite sign_in_skipped; [| exact E].
    repeat split.
Qed.

Lemma handle_supabase_error_skipped (s : State) :
  now s <= sign_in_time (dal s) + SUPABASE_LOGIN_RATE_LIMIT_SEC ->
  handle_supabase_error s = (Return tt, tick s).
Proof.
  intros H. unfold handle_supabase_error, try_except.
  now rewrite (sign_in_skipped s H).
Qed.

(** X11: a burst of [n] recoveries made while the clock reads no more than
    the stored time plus the minimum interval costs [n] readings of the clock
    and nothing else: no handshake, no log record, no change of the
    object. *)
Theorem recovery_is_throttled (n : nat) :
  forall s : State,
    (forall i, (i < n)%nat ->
       clock (world s) (ticks (world s) + i)
         <= sign_in_time (dal s) + SUPABASE_LOGIN_RATE_LIMIT_SEC) ->
    recoveries n s = ticked n s.
Proof.
  induction n as [| n IH]; intros s Hw; [reflexivity |].
  simpl. rewrite handle_supabase_error_skipped.
  - simpl. apply IH. intros i Hi. simpl.
    rewrite <- Nat.add_succ_r. apply Hw. lia.
  - unfold now. rewrite <- (Nat.add_0_r (ticks (world s))). apply Hw. lia.
Qed.

(** ** The request of [rpc] *)

Lemma append_nil_r (s : string) : String.append s "" = s.
Proof. induction s as [| a s IH]; simpl; [reflexivity | now rewrite IH]. Qed.

Lemma rstrip_copies (c : ascii) (n : nat) : rstrip c (copies n c) = "".
Proof.
  induction n as [| n IH]; simpl; [reflexivity |].
  now rewrite IH, Ascii.eqb_refl.
Qed.

Lemma rstrip_append_copies (c : ascii) (s : string) (n : nat) :
  rstrip c (String.append s (copies n c)) = rstrip c s.
Proof.
  induction s as [| a s IH]; simpl.
  - apply rstrip_copies.
  - now rewrite IH.
Qed.

Lemma rstrip_decompose (c : ascii) (s : string) :
  exists n, s = String.append (rstrip c s) (copies n c).
Proof.
  induction s as [| a s [n IH]]; simpl.
  - now exists O.
  - destruct (rstrip c s) as [| b kept] eqn:E.
    + simpl in IH. destruct (Ascii.eqb a c) eqn:Ea.
      * apply Ascii.eqb_eq in Ea. subst a. exists (S n). simpl. now f_equal.
      * exists n. simpl. now f_equal.
    + exists n. rewrite append_String. now f_equal.
Qed.

Lemma rstrip_last (c : ascii) (s : string) : last_char (rstrip c s) <> Some c.
Proof.
  induction s as [| a s IH]; simpl; [discriminate |].
  destruct (rstrip c s) as [| b kept] eqn:E.
  - destruct (Ascii.eqb a c) eqn:Ea; simpl; [discriminate |].
    intros H. injection H as ->. now rewrite Ascii.eqb_refl in Ea.
  - exact IH.
Qed.

(** X12: [rpc] posts to the base URL without the slashes it ends with,
    followed by [/rpc/], the name of the procedure, [?] and the query
    parameters, with [params] as the JSON body; base URLs that differ only in
    the number of slashes at their end give the same request. *)
Theorem rpc_post_url (self : RobustaClient) (fn : string) (body : Dict) :
  (forall n,
     rpc_post (set_base_url (String.append (base_url self) (copies n "/"%char))
                 self) fn body
     = rpc_post self fn body) /\
  (forall p,
     rpc_post self fn body = inr p ->
     exists stem n,
       base_url self = String.append stem (copies n "/"%char) /\
       last_char stem <> Some "/"%char /\
       post_url p
       = String.append stem
           (String.append "/rpc/"
              (String.append fn (String.append "?" (params self)))) /\
       post_json p = body).
Proof.
  split.
  - intros n. unfold rpc_post, set_base_url, _get_auth_headers. simpl.
    now rewrite rstrip_append_copies.
  - intros p H. unfold rpc_post in H.
    destruct (_get_auth_headers self) as [e | hs]; [discriminate |].
    injection H as <-. simpl.
    destruct (rstrip_decompose "/"%char (base_url self)) as [n Hn].
    exists (rstrip "/"%char (base_url self)), n.
    repeat split; [exact Hn | apply rstrip_last].
Qed.

Lemma dict_get_absent (k : string) (d : Dict) :
  ~ In k (map fst d) -> dict_get k d = None.
Proof.
  induction d as [| [k' v'] rest IH]; simpl; intros H; [reflexivity |].
  destruct (String.eqb k' k) eqn:E.
  - apply String.eqb_eq in E. tauto.
  - apply IH. tauto.
Qed.

(** A lookup in [a | b]: the value of [b] when [b] has the key, the value of
    [a] otherwise. *)
Lemma dict_get_merge (k : string) (b : Dict) :
  NoDup (map fst b) ->
  forall a,
    dict_get k (dict_merge a b)
    = match dict_get k b with
      | Some v => Some v
      | None => dict_get k a
      end.
Proof.
  unfold dict_merge.
  induction b as [| [k0 v0] rest IH]; simpl; intros Hnd a; [reflexivity |].
  inversion Hnd as [| ? ? Hnotin Hrest]; subst.
  rewrite (IH Hrest). destruct (String.eqb k0 k) eqn:E.
  - apply String.eqb_eq in E. subst k0.
    rewrite (dict_get_absent k rest Hnotin). apply dict_get_set_same.
  - destruct (dict_get k rest); [reflexivity |].
    apply dict_get_set_other. intros ->. now rewrite String.eqb_refl in E.
Qed.

Lemma auth_headers_shape (self : RobustaClient) (hs : Dict) :
  _get_auth_headers self = inr hs ->
  exists token,
    hs = [ ("apiKey", JStr (supabase_key self));
           ("Authorization", JStr (String.append "Bearer " token)) ].
Proof.
  unfold _get_auth_headers.
  match goal with
  | |- match ?t with _ => _ end = _ -> _ => destruct t as [e | token]
  end; [discriminate |].
  intros H. injection H as <-. now exists (fstr token).
Qed.

(** X13: whenever [_get_auth_headers] returns, it returns the two headers
    [apiKey] and [Authorization], the first with the key of the client and
    the second with a bearer token.  The token is the key of the client when
    the client has no [auth], when the current session is empty or [None],
    and when the access token of the current session is empty; a current
    session without an access token raises [KeyError]. *)
Theorem auth_headers_spec (self : RobustaClient) :
  (forall hs,
     _get_auth_headers self = inr hs ->
     map fst hs = ["apiKey"; "Authorization"] /\
     dict_get "apiKey" hs = Some (JStr (supabase_key self)) /\
     exists token,
       dict_get "Authorization" hs
       = Some (JStr (String.append "Bearer " token))) /\
  (client_auth self = None ->
   _get_auth_headers self = inr (anon_headers self)) /\
  (forall a,
     client_auth self = Some a ->
     truthy (current_session a) = false ->
     _get_auth_headers self = inr (anon_headers self)) /\
  (forall a kvs token,
     client_auth self = Some a ->
     current_session a = JObj kvs ->
     dict_get "access_token" kvs = Some token ->
     truthy token = false ->
     _get_auth_headers self = inr (anon_headers self)) /\
  (forall a kvs,
     client_auth self = Some a ->
     current_session a = JObj kvs ->
     kvs <> [] ->
     dict_get "access_token" kvs = None ->
     _get_auth_headers self = inl (KeyError "access_token")).
Proof.
  split; [| split; [| split; [| split]]].
  - intros hs H. destruct (auth_headers_shape self hs H) as [token ->].
    repeat split. now exists token.
  - intros H. unfold _get_auth_headers. now rewrite H.
  - intros a Ha Hs. unfold _get_auth_headers. now rewrite Ha, Hs.
  - intros a kvs token Ha Hs Hk Ht. unfold _get_auth_headers.
    rewrite Ha, Hs. simpl. rewrite Hk, Ht.
    now destruct kvs.
  - intros a kvs Ha Hs Hne Hk. unfold _get_auth_headers.
    rewrite Ha, Hs. simpl. rewrite Hk.
    destruct kvs; [contradiction | reflexivity].
Qed.

(** X14: in the dictionary of headers that [rpc] gives to [requests.post],
    the entries [apiKey] and [Authorization] are those of
    [_get_auth_headers], whatever the dictionary of the session held under
    these keys, and every other entry of the session is passed as it is. *)
Theorem rpc_post_headers (self : RobustaClient) (fn : string) (body : Dict)
    (p : Post) :
  rpc_post self fn body = inr p ->
  exists auth_headers,
    _get_auth_headers self = inr auth_headers /\
    dict_get "apiKey" (post_headers p) = Some (JStr (supabase_key self)) /\
    dict_get "Authorization" (post_headers p)
      = dict_get "Authorization" auth_headers /\
    (forall k, k <> "apiKey" -> k <> "Authorization" ->
               dict_get k (post_headers p) = dict_get k (headers self)).
Proof.
  unfold rpc_post. destruct (_get_auth_headers self) as [e | hs] eqn:E;
    [discriminate |].
  intros H. injection H as <-. simpl. exists hs. split; [reflexivity |].
  destruct (auth_headers_shape self hs E) as [token ->].
  assert (Hnd : NoDup (map fst
                         [ ("apiKey", JStr (supabase_key self));
                           ("Authorization",
                             JStr (String.append "Bearer " token)) ])).
  { simpl. constructor.
    - intros [H | []]. discriminate.
    - constructor; [intros [] | constructor]. }
  split; [| split].
  - now rewrite (dict_get_merge _ _ Hnd).
  - now rewrite (dict_get_merge _ _ Hnd).
  - intros k H1 H2. rewrite (dict_get_merge _ _ Hnd). cbn [dict_get].
    apply String.eqb_neq in H1, H2.
    rewrite String.eqb_sym in H1. rewrite String.eqb_sym in H2.
    now rewrite H1, H2.
Qed.

(** ** More on reading, on the session and on the entries *)

(** X15: [get_active_services] only reads: in every run, whatever the store
    answers and whether the call returns or raises, the one call it makes on
    the store is the select of its query. *)
Theorem get_active_services_only_selects (s : State) :
  sent (world (snd (get_active_services s)))
  = sent (world s) ++ [active_services_query (dal s)].
Proof.
  set (q := active_services_query (dal s)).
  destruct (reply s q) as [e | res] eqn:Hr.
  - unfold get_active_services, bind, get_self.
    unfold q, active_services_query in Hr.
    now rewrite (execute_raises _ s e Hr).
  - destruct (Z.eq_dec (status_code res) 200) as [Hst | Hst].
    + rewrite (get_active_services_answered s res Hr Hst). fold q.
      unfold bind. destruct (py_iter (data res)) as [e | rows]; simpl;
        [reflexivity |].
      destruct (services_of_rows_spec rows (called q s)) as [Hs _].
      now rewrite Hs.
    + unfold get_active_services, bind, get_self.
      unfold q, active_services_query in *.
      rewrite (execute_answered _ s res Hr).
      apply Z.eqb_neq in Hst. rewrite Hst. simpl.
      match goal with
      | |- context [handle_supabase_error ?s1] =>
          destruct (handle_supabase_error_store s1) as [Hs _];
          destruct (handle_supabase_error s1) as [[[] | e] s2]; simpl in *;
          now rewrite Hs
      end.
Qed.

(** X16: on a clock that does not go back between the two readings of an
    attempt, a sign-in attempt either is skipped, and then only reads the
    clock, or makes one handshake and stores a time that is more than the
    minimum interval after the time stored before: the recorded times of two
    successive handshakes of an object are more than the interval apart. *)
Theorem handshakes_are_spaced (s : State) :
  clock (world s) (ticks (world s)) <= clock (world s) (S (ticks (world s))) ->
  attempt s = tick s \/
  (logins (world (attempt s))
     = logins (world s) ++ [(email (dal s), password (dal s))] /\
   sign_in_time (dal s) + SUPABASE_LOGIN_RATE_LIMIT_SEC
     < sign_in_time (dal (attempt s))).
Proof.
  intros Hmono. unfold attempt.
  destruct (Z.lt_ge_cases (sign_in_time (dal s) + SUPABASE_LOGIN_RATE_LIMIT_SEC)
              (now s)) as [H | H].
  - right. rewrite (sign_in_due s H). split; [reflexivity |].
    unfold now in H. simpl. unfold now. simpl. lia.
  - left. now rewrite (sign_in_skipped s H).
Qed.

(** X17: the loop of [to_evidence] keeps the order of the blocks: the
    structured data of a sequence of blocks followed by another are the
    structured data of the first followed by those of the second. *)
Theorem structured_data_app (self : SupabaseDal) (pre post : list Block)
    (s s1 s2 : State) (a b : list json) :
  evidence_loop self pre [] s = (Return a, s1) ->
  evidence_loop self post [] s1 = (Return b, s2) ->
  evidence_loop self (pre ++ post) [] s = (Return (a ++ b), s2).
Proof.
  intros Ha Hb. rewrite evidence_loop_app, Ha, evidence_loop_acc, Hb.
  reflexivity.
Qed.

Lemma map_JStr_inj (l l' : list string) : map JStr l = map JStr l' -> l = l'.
Proof.
  revert l'. induction l as [| x l IH]; intros [| y l'] H;
    try discriminate; [reflexivity |].
  simpl in H. injection H as -> H. f_equal. now apply IH.
Qed.

Lemma map_jstrs_inj (r r' : list (list string)) :
  map jstrs r = map jstrs r' -> r = r'.
Proof.
  revert r'. induction r as [| x r IH]; intros [| y r'] H;
    try discriminate; [reflexivity |].
  simpl in H. injection H as Hx H. f_equal; [| now apply IH].
  now apply map_JStr_inj.
Qed.

(** X18: the entry of a table block determines the table: two table blocks
    with the same entry have the same headers, the same rows in the same
    order and the same column renderers; and the entry of a list block
    determines its items. *)
Theorem table_entry_injective (self : SupabaseDal)
    (rows rows' : list (list string)) (hs hs' : list string)
    (renderers renderers' : Dict) (items items' : list string)
    (s : State) :
  (fst (evidence_entry self (TableBlock rows hs renderers) s)
   = fst (evidence_entry self (TableBlock rows' hs' renderers') s) ->
   rows = rows' /\ hs = hs' /\ renderers = renderers') /\
  (fst (evidence_entry self (ListBlock items) s)
   = fst (evidence_entry self (ListBlock items') s) ->
   items = items').
Proof.
  split; simpl; intros H.
  - injection H as Hh Hr Hc.
    repeat split; [now apply map_jstrs_inj | now apply map_JStr_inj | exact Hc].
  - injection H as H. now apply map_JStr_inj.
Qed.

End Coverage.

(** * The properties on the sample data *)

(** A write that the store rejects with status 500 returns to the caller;
    one call is on the trace. *)
Lemma rejected_write_is_dropped_sample :
  not_in_200_201 rejected = true /\
  fst (persist_service (ext := sample_ext) sample_service
         (sample_state rejecting_store auth_ok)) = Return tt /\
  fst (persist_finding (ext := sample_ext) sample_finding
         (sample_state rejecting_store auth_ok)) = Return tt.
Proof.
  destruct (rejected_write_is_dropped (ext := sample_ext)
              (sample_state rejecting_store auth_ok)) as (Hf & _ & Hs & _).
  split; [reflexivity | split].
  - destruct (Hs sample_service rejected eq_refl) as (s' & Hp & _).
    now rewrite Hp.
  - destruct (Hf sample_finding) as (issue & _ & H).
    destruct (H rejected eq_refl eq_refl) as [Hp _]. now rewrite Hp.
Defined.

(** A transport failure of the store reaches the caller of both write
    paths, and so does the [ValueError] of the encoder when the Issue was
    accepted. *)
Lemma persist_raises_to_caller :
  fst (persist_service (ext := sample_ext) sample_service
         (sample_state unreachable_store auth_ok))
    = Raise (ConnectionError "connection refused") /\
  fst (persist_finding (ext := sample_ext) sample_finding
         (sample_state unreachable_store auth_ok))
    = Raise (ConnectionError "connection refused") /\
  fst (persist_finding (ext := sample_ext) attachment_finding
         (sample_state accepting_store auth_ok))
    = Raise (ValueError "substring not found").
Proof. repeat split. Qed.



(** The store holds five rows; two of them are of the account and the
    cluster of the object and not deleted.  A store that answers 500 makes
    the call raise. *)
Lemma get_active_services_contract_sample :
  get_active_services (ext := sample_ext) (sample_state table_store auth_ok)
    = (Return [ info_of_row (service_row "api" "acct-1" "prod" false);
                info_of_row (service_row "worker" "acct-1" "prod" false) ],
       called (active_services_query sample_dal)
         (sample_state table_store auth_ok)) /\
  fst (get_active_services (ext := sample_ext)
         (sample_state rejecting_store auth_ok))
    = Raise (Exception (FailedGetServices (JStr "internal error"))).
Proof.
  destruct (get_active_services_contract (ext := sample_ext)
              (sample_state table_store auth_ok)) as [_ Hok].
  destruct (get_active_services_contract (ext := sample_ext)
              (sample_state rejecting_store auth_ok)) as [Hko _].
  split.
  - exact (Hok sample_table eq_refl).
  - destruct (Hko rejected eq_refl) as (s' & Hp & _).
    + discriminate.
    + now rewrite Hp.
Defined.

(** A fresh object: the first attempt signs in, the second, a hundred
    seconds later, does not, and the third, a thousand seconds later,
    does. *)
Lemma sign_in_rate_limited_sample :
  let s1 := sample_state accepting_store auth_ok in
  let s2 := attempt (ext := sample_ext) s1 in
  let s3 := attempt (ext := sample_ext) s2 in
  (sign_in_time (dal s1) + 900 < now s1 /\
   now s1 <= sign_in_time (dal s2) /\
   now s2 - now s1 < 900 /\
   sign_in_time (dal s2) + 900 < now s3) /\
  logins (world s2) = [("robot@example.com", "secret")] /\
  logins (world s3) = [("robot@example.com", "secret")] /\
  logins (world (attempt (ext := sample_ext) s3))
    = [("robot@example.com", "secret"); ("robot@example.com", "secret")].
Proof.
  intros s1 s2 s3.
  split; [repeat apply conj; vm_compute; congruence |].
  apply (sign_in_rate_limited (ext := sample_ext) s1 s2 s3);
    try reflexivity; vm_compute; congruence.
Defined.

(** The handshake of the recovery raises: the handler returns, and the log
    holds the record of the login and no record of the error. *)
Lemma handle_supabase_error_swallows_sample :
  fst (sign_in (ext := sample_ext) (sample_state accepting_store auth_fails))
    = Raise (AuthError "invalid login credentials") /\
  fst (handle_supabase_error (ext := sample_ext)
         (sample_state accepting_store auth_fails)) = Return tt /\
  log (world (snd (handle_supabase_error (ext := sample_ext)
                     (sample_state accepting_store auth_fails))))
    = [(INFO, SupabaseDalLogin)].
Proof.
  destruct (handle_supabase_error_swallows (ext := sample_ext)
              (sample_state accepting_store auth_fails)) as (Hp & _ & Hlog).
  split; [reflexivity | split].
  - now rewrite Hp.
  - rewrite (Hlog _ eq_refl). reflexivity.
Defined.

(** A handshake that raises at the second reading of the clock, and a
    second attempt ninety-nine seconds after it: the attempt is a no-op. *)
Lemma failed_sign_in_consumes_window_sample :
  let s := sample_state accepting_store auth_fails in
  let s1 := attempt (ext := sample_ext) s in
  fst (sign_in (ext := sample_ext) s)
    = Raise (AuthError "invalid login credentials") /\
  sign_in_time (dal s1) = 1700000001 /\
  now s1 <= 1700000001 + 900 /\
  sign_in (ext := sample_ext) s1 = (Return tt, tick s1).
Proof.
  intros s s1.
  destruct (failed_sign_in_consumes_window (ext := sample_ext) s
              (AuthError "invalid login credentials") eq_refl)
    as (_ & Ht & Hnoop).
  split; [reflexivity | split; [exact Ht | split]].
  - discriminate.
  - apply (Hnoop s1 eq_refl). discriminate.
Defined.

(** The Evidence record of the sample report carries the account id. *)
Lemma wire_records_carry_tenant_sample :
  exists evidence s',
    to_evidence (ext := sample_ext) (JStr "42") report
      (sample_state accepting_store auth_ok) = (Return evidence, s') /\
    dict_get "account_id" evidence = Some (JStr "acct-1").
Proof.
  eexists. eexists. split; [reflexivity |].
  apply (wire_records_carry_tenant (ext := sample_ext)
           (sample_state accepting_store auth_ok) _ sample_finding
           (JStr "42") report _ sample_service eq_refl).
Defined.

(** The category of the sample finding is sent as ["issue"], the value of
    the member, and not as ["ISSUE"], its name; so is the subject type. *)
Lemma to_issue_sends_values_not_names :
  exists issue s',
    to_issue (ext := sample_ext) sample_finding
      (sample_state accepting_store auth_ok) = (Return issue, s') /\
    enum_name (finding_type sample_finding) = "ISSUE" /\
    dict_get "category" issue = Some (JStr "issue") /\
    dict_get "category" issue
      <> Some (JStr (enum_name (finding_type sample_finding))) /\
    enum_name (subject_type (subject sample_finding)) = "TYPE_POD" /\
    dict_get "subject_type" issue = Some (JStr "pod") /\
    dict_get "subject_type" issue
      <> Some (JStr (enum_name (subject_type (subject sample_finding)))).
Proof.
  eexists. eexists. split; [reflexivity |].
  repeat split; discriminate.
Qed.

(** The sample report and the same report with its Markdown text emptied:
    two entries and one. *)
Lemma empty_markdown_yields_no_entry_sample :
  let s := sample_state accepting_store auth_ok in
  let rest := [DividerBlock; OtherBlock "JsonBlock"] in
  "hello" <> "" /\
  fst (to_evidence (ext := sample_ext) (JStr "42")
         {| blocks := [] ++ MarkdownBlock "hello" :: rest; category := None |}
         s)
    = Return [ ("finding_id", JStr "42");
               ("data",
                 JStr (json_dumps (Externals := sample_ext)
                         (JArr [ JObj [ ("type", JStr "markdown");
                                        ("data", JStr "hello") ];
                                 JObj [ ("type", JStr "divider") ] ])));
               ("account_id", JStr "acct-1");
               ("category", JNull) ] /\
  fst (to_evidence (ext := sample_ext) (JStr "42")
         {| blocks := [] ++ MarkdownBlock "" :: rest; category := None |} s)
    = Return [ ("finding_id", JStr "42");
               ("data",
                 JStr (json_dumps (Externals := sample_ext)
                         (JArr [ JObj [ ("type", JStr "divider") ] ])));
               ("account_id", JStr "acct-1");
               ("category", JNull) ] /\
  (evidence_entry (ext := sample_ext) (dal s) (MarkdownBlock "") s
     = (Return None, s) /\
   match
     to_evidence (ext := sample_ext) (JStr "42")
       {| blocks := [] ++ MarkdownBlock "hello" :: rest; category := None |} s,
     to_evidence (ext := sample_ext) (JStr "42")
       {| blocks := [] ++ MarkdownBlock "" :: rest; category := None |} s
   with
   | (Return evidence, s1), (Return evidence0, s0) =>
       s1 = s0 /\
       exists before after,
         evidence_loop (ext := sample_ext) (dal s)
           ([] ++ MarkdownBlock "hello" :: rest) [] s
           = (Return
                (before
                 ++ JObj [ ("type", JStr "markdown");
                           ("data",
                             JStr (to_github_markdown (Externals := sample_ext)
                                     "hello")) ] :: after), s1) /\
         evidence_loop (ext := sample_ext) (dal s)
           ([] ++ MarkdownBlock "" :: rest) [] s
           = (Return (before ++ after), s0) /\
         dict_get "data" evidence
           = Some (JStr (json_dumps (Externals := sample_ext)
                           (JArr (before
                                  ++ JObj [ ("type", JStr "markdown");
                                            ("data",
                                              JStr (to_github_markdown
                                                      (Externals := sample_ext)
                                                      "hello")) ]
                                     :: after)))) /\
         dict_get "data" evidence0
           = Some (JStr (json_dumps (Externals := sample_ext)
                           (JArr (before ++ after)))) /\
         List.length
           (before
            ++ JObj [ ("type", JStr "markdown");
                      ("data",
                        JStr (to_github_markdown (Externals := sample_ext)
                                "hello")) ] :: after)
           = S (List.length (before ++ after))
   | (Raise e, s1), (Raise e0, s0) => e = e0 /\ s1 = s0
   | _, _ => False
   end).
Proof.
  intros s rest.
  assert (H : "hello" <> "") by discriminate.
  split; [exact H | split; [reflexivity | split; [reflexivity |]]].
  exact (empty_markdown_yields_no_entry (ext := sample_ext) (JStr "42")
           [] rest None "hello" s H).
Defined.

(** The scenario of a finding of severity HIGH with one enrichment made of
    a Markdown block, a divider and a block of an unknown class: the Issue
    has priority ["HIGH"], and the structured data are the Markdown entry and
    the divider, with one error on the log for the dropped block. *)
Example high_finding_scenario :
  let s := sample_state accepting_store auth_ok in
  (exists issue,
     to_issue (ext := sample_ext) (finding_with [report]) s
       = (Return issue, tick s) /\
     dict_get "priority" issue = Some (JStr "HIGH") /\
     dict_get "fingerprint" issue = Some (JStr "abc")) /\
  evidence_loop (ext := sample_ext) sample_dal (blocks report) [] s
    = (Return [ JObj [("type", JStr "markdown"); ("data", JStr "hello")];
                JObj [("type", JStr "divider")] ],
       add_logs [(ERROR, CannotConvertBlock (OtherBlock "JsonBlock"))] s).
Proof.
  split; [eexists; repeat split | reflexivity].
Qed.

(** * The further properties on the sample data *)

(** The sample finding against a store that is unreachable at the second
    call: the Issue was accepted, so no handshake is made. *)
Lemma persist_finding_calls_sample :
  let s := sample_state flaky_store auth_ok in
  let s' := snd (persist_finding (ext := sample_ext) sample_finding s) in
  logins (world s') = [] /\ dal s' = dal s /\
  map resource (sent (world s'))
    = ["insert_finding_v1"; "insert_enrichment_v1"].
Proof.
  intros s s'.
  destruct (persist_finding_calls (ext := sample_ext) sample_finding s)
    as (issue & reqs & _ & _ & _ & _ & Hacc).
  destruct (Hacc accepted eq_refl eq_refl) as [Hl Hd].
  split; [exact Hl | split; [exact Hd | reflexivity]].
Defined.

Lemma structured_data_entries_sample :
  let s := sample_state accepting_store auth_ok in
  let sd := [ JObj [("type", JStr "markdown"); ("data", JStr "hello")];
              JObj [("type", JStr "divider")] ] in
  let s' := add_logs [(ERROR, CannotConvertBlock (OtherBlock "JsonBlock"))] s in
  evidence_loop (ext := sample_ext) sample_dal (blocks report) [] s
    = (Return sd, s') /\
  (List.length sd = List.length (filter yields (blocks report)) /\
   Forall typed_entry sd /\
   s' = add_logs (map (fun b => (ERROR, CannotConvertBlock b))
                    (filter is_other (blocks report))) s).
Proof.
  intros s sd s'. split; [reflexivity |].
  exact (structured_data_entries (ext := sample_ext) sample_dal (blocks report)
           s s' sd eq_refl).
Defined.

Lemma file_block_entry_sample :
  let s := sample_state accepting_store auth_ok in
  let entry := Some (JObj [("type", JStr "txt"); ("data", JStr "b'aGk='")]) in
  evidence_entry (ext := sample_ext) sample_dal
    (FileBlock "pod.logs.txt" [x68; x69]) s = (Return entry, s) /\
  exists stem tag,
    "pod.logs.txt" = String.append stem (String "."%char tag) /\
    rindex "."%char tag = None /\
    entry = Some (JObj [ ("type", JStr tag);
                         ("data", JStr (b64encode_str (Externals := sample_ext)
                                          [x68; x69])) ]) /\
    s = s.
Proof.
  intros s entry. split; [reflexivity |].
  exact (file_block_entry (ext := sample_ext) sample_dal "pod.logs.txt"
           [x68; x69] entry s s eq_refl).
Defined.

(** A context that holds a [target_id] of its own: the callbacks get the
    one of the object, and the [pod] of the context; with a callback that
    [create_for_func] does not take, the round raises. *)
Lemma callback_block_entry_sample :
  let s := sample_state accepting_store auth_ok in
  let choices := [("Restart", "restart_pod"); ("Logs", "fetch_logs")] in
  let context := [("target_id", JStr "spoofed"); ("pod", JStr "api-7d9")] in
  evidence_entry (ext := sample_ext) sample_dal
    (CallbackBlock choices context) s
    = (Return
         (Some
            (JObj
               [ ("type", JStr "callbacks");
                 ("data",
                   JArr [ JObj [ ("text", JStr "Restart");
                                 ("callback", JStr "restart_pod") ];
                          JObj [ ("text", JStr "Logs");
                                 ("callback", JStr "fetch_logs") ] ]) ])),
       s) /\
  evidence_entry (ext := sample_ext) sample_dal
    (CallbackBlock [("Restart", "restart_pod"); ("Broken", "")] context) s
    = (Raise (TypeError "not a playbook action"), s) /\
  exists context',
    dict_get "target_id" context' = Some (JStr "target") /\
    dict_get "sink_name" context' = Some (JStr "robusta_ui") /\
    dict_get "pod" context' = Some (JStr "api-7d9") /\
    exists callbacks,
      Forall2 (fun choice callback =>
                 exists token,
                   create_for_func_json (Externals := sample_ext) (snd choice)
                     (json_dumps (Externals := sample_ext) (JObj context'))
                     (fst choice) = inr token /\
                   callback = JObj [ ("text", JStr (fst choice));
                                     ("callback", JStr token) ])
        choices callbacks.
Proof.
  intros s choices context.
  split; [reflexivity | split; [reflexivity |]].
  destruct (callback_block_entry (ext := sample_ext) sample_dal choices
              context s)
    as (context' & Ht & Hs & Hk & Hret & _).
  exists context'. split; [exact Ht | split; [exact Hs | split]].
  - rewrite (Hk "pod"); [reflexivity | discriminate | discriminate].
  - destruct (Hret _ _ eq_refl) as (_ & callbacks & _ & Hall).
    now exists callbacks.
Defined.

Lemma get_active_services_reads_rows_sample :
  let s := sample_state (rows_store [api_row; worker_row]) auth_ok in
  let bad := sample_state (rows_store [api_row; short_row]) auth_ok in
  let api := {| service_name := JStr "api"; service_type := JStr "Deployment";
                service_namespace := JStr "default";
                classification := JStr "None"; deleted := false |} in
  let worker := {| service_name := JStr "worker";
                   service_type := JStr "DaemonSet";
                   service_namespace := JStr "kube-system";
                   classification := JStr "None"; deleted := false |} in
  (get_active_services (ext := sample_ext) s
     = (Return [api; worker], called (active_services_query sample_dal) s) /\
   Forall2 read_from [api_row; worker_row] [api; worker]) /\
  (forallb row_ok [api_row; short_row] = false /\
   snd (get_active_services (ext := sample_ext) bad)
     = called (active_services_query sample_dal) bad /\
   fst (get_active_services (ext := sample_ext) bad)
     = Raise (KeyError "classification")).
Proof.
  intros s bad api worker. split.
  - destruct (get_active_services_reads_rows (ext := sample_ext) s
                {| status_code := 200; data := JArr [api_row; worker_row] |}
                [api_row; worker_row] eq_refl eq_refl eq_refl)
      as (_ & Hret & _).
    split; [reflexivity | exact (Hret [api; worker] eq_refl)].
  - destruct (get_active_services_reads_rows (ext := sample_ext) bad
                {| status_code := 200; data := JArr [api_row; short_row] |}
                [api_row; short_row] eq_refl eq_refl eq_refl)
      as (Hs & _ & _).
    split; [reflexivity | split; [exact Hs | reflexivity]].
Defined.

Lemma persist_finding_needs_row_sample :
  let s := sample_state empty_store auth_ok in
  not_in_200_201 accepted_empty = false /\
  inserted_row accepted_empty = inl (IndexError "list index out of range") /\
  fst (persist_finding (ext := sample_ext) sample_finding s)
    = Raise (IndexError "list index out of range") /\
  map resource
    (sent (world (snd (persist_finding (ext := sample_ext) sample_finding s))))
    = ["insert_finding_v1"].
Proof.
  intros s.
  destruct (to_issue_eq (ext := sample_ext) sample_finding s) as [issue Hi].
  pose proof (persist_finding_needs_row (ext := sample_ext) sample_finding s
                accepted_empty issue (IndexError "list index out of range")
                Hi eq_refl eq_refl eq_refl) as Hp.
  split; [reflexivity | split; [reflexivity |]].
  rewrite Hp. split; reflexivity.
Defined.

(** Three recoveries within the window of the last sign-in, with a login
    service that would raise: three readings of the clock. *)
Lemma recovery_is_throttled_sample :
  (forall i, (i < 3)%nat ->
     clock (world recent_state) (ticks (world recent_state) + i)
       <= sign_in_time (dal recent_state) + 900) /\
  recoveries (ext := sample_ext) 3 recent_state = ticked 3 recent_state /\
  logins (world (recoveries (ext := sample_ext) 3 recent_state)) = [] /\
  log (world (recoveries (ext := sample_ext) 3 recent_state)) = [].
Proof.
  assert (H : forall i, (i < 3)%nat ->
                clock (world recent_state) (ticks (world recent_state) + i)
                  <= sign_in_time (dal recent_state) + 900).
  { intros i Hi.
    destruct i as [| [| [| i]]]; [vm_compute; congruence .. | lia]. }
  split; [exact H |].
  rewrite (recovery_is_throttled (ext := sample_ext) 3 recent_state H).
  repeat split.
Defined.

Lemma rpc_post_url_sample :
  exists p,
    rpc_post (ext := sample_ext) sample_client "insert_finding_v1" [] = inr p /\
    post_url p
      = "https://store.example.com/rest/v1/rpc/insert_finding_v1?" /\
    exists stem n,
      base_url sample_client = String.append stem (copies n "/"%char) /\
      last_char stem <> Some "/"%char.
Proof.
  eexists. split; [reflexivity | split; [reflexivity |]].
  destruct (rpc_post_url (ext := sample_ext) sample_client
              "insert_finding_v1" []) as [_ H].
  destruct (H _ eq_refl) as (stem & n & Hb & Hl & _).
  now exists stem, n.
Defined.

Lemma auth_headers_spec_sample :
  _get_auth_headers (ext := sample_ext) sample_client
    = inr [ ("apiKey", JStr "anon-key");
            ("Authorization", JStr "Bearer jwt-2") ] /\
  dict_get "apiKey"
    [ ("apiKey", JStr "anon-key"); ("Authorization", JStr "Bearer jwt-2") ]
    = Some (JStr "anon-key").
Proof.
  split; [reflexivity |].
  destruct (auth_headers_spec (ext := sample_ext) sample_client) as [H _].
  destruct (H _ eq_refl) as (_ & Hk & _). exact Hk.
Defined.

(** The stale [apiKey] of the session is replaced, [Accept] is kept. *)
Lemma rpc_post_headers_sample :
  exists p,
    rpc_post (ext := sample_ext) sample_client "insert_finding_v1" [] = inr p /\
    dict_get "apiKey" (post_headers p) = Some (JStr "anon-key") /\
    dict_get "Authorization" (post_headers p) = Some (JStr "Bearer jwt-2") /\
    dict_get "Accept" (post_headers p) = Some (JStr "application/json").
Proof.
  eexists. split; [reflexivity |].
  destruct (rpc_post_headers (ext := sample_ext) sample_client
              "insert_finding_v1" [] _ eq_refl)
    as (hs & Hh & Hk & Ha & Ho).
  split; [exact Hk | split].
  - rewrite Ha. injection Hh as <-. reflexivity.
  - rewrite (Ho "Accept"); [reflexivity | discriminate | discriminate].
Defined.

Lemma handshakes_are_spaced_sample :
  let s := sample_state accepting_store auth_ok in
  sample_clock 0 <= sample_clock 1 /\
  (attempt (ext := sample_ext) s = tick s \/
   (logins (world (attempt (ext := sample_ext) s))
      = logins (world s) ++ [(email (dal s), password (dal s))] /\
    sign_in_time (dal s) + 900
      < sign_in_time (dal (attempt (ext := sample_ext) s)))).
Proof.
  intros s.
  assert (H : sample_clock 0 <= sample_clock 1) by (vm_compute; congruence).
  split; [exact H |].
  exact (handshakes_are_spaced (ext := sample_ext) s H).
Defined.

Lemma structured_data_app_sample :
  let s := sample_state accepting_store auth_ok in
  let a := [ JObj [("type", JStr "markdown"); ("data", JStr "hello")] ] in
  let b := [ JObj [("type", JStr "divider")];
             JObj [("type", JStr "header"); ("data", JStr "Logs")] ] in
  evidence_loop (ext := sample_ext) sample_dal [MarkdownBlock "hello"] [] s
    = (Return a, s) /\
  evidence_loop (ext := sample_ext) sample_dal
    [DividerBlock; HeaderBlock "Logs"] [] s = (Return b, s) /\
  evidence_loop (ext := sample_ext) sample_dal
    ([MarkdownBlock "hello"] ++ [DividerBlock; HeaderBlock "Logs"]) [] s
    = (Return (a ++ b), s).
Proof.
  intros s a b. split; [reflexivity | split; [reflexivity |]].
  exact (structured_data_app (ext := sample_ext) sample_dal
           [MarkdownBlock "hello"] [DividerBlock; HeaderBlock "Logs"]
           s s s a b eq_refl eq_refl).
Defined.

(** An empty URL: the constructor raises before it reads the clock or signs
    in; a URL that the client takes: the constructor signs in. *)
Lemma init_outcome_sample :
  let w := world (sample_state accepting_store auth_ok) in
  let failed :=
    __init__ (ext := sample_ext) "" "api-key" "acct-1" "robot@example.com"
      "secret" "robusta_ui" "prod" w in
  let made :=
    __init__ (ext := sample_ext) "https://store.example.com" "api-key"
      "acct-1" "robot@example.com" "secret" "robusta_ui" "prod" w in
  (fst failed = Raise (Exception (Text "supabase_url is required")) /\
   world (snd failed) = w) /\
  fst made = Return tt /\
  logins (world (snd made)) = [("robot@example.com", "secret")] /\
  sign_in_time (dal (snd made)) = sample_clock 1.
Proof.
  intros w failed made. split.
  - exact (init_outcome (ext := sample_ext) "" "api-key" "acct-1"
             "robot@example.com" "secret" "robusta_ui" "prod" w).
  - exact (init_outcome (ext := sample_ext) "https://store.example.com"
             "api-key" "acct-1" "robot@example.com" "secret" "robusta_ui"
             "prod" w).
Defined.

(** An enrichment whose second block is a file without an extension, after
    a block of an unknown class: the encoder raises and has logged the
    unknown block. *)
Lemma to_evidence_outcome_sample :
  let s := sample_state accepting_store auth_ok in
  let e := {| blocks := [OtherBlock "JsonBlock"; FileBlock "README" [];
                         DividerBlock];
              category := None |} in
  first_error (ext := sample_ext) (dal s) (blocks e)
    = Some (ValueError "substring not found") /\
  fst (to_evidence (ext := sample_ext) (JStr "42") e s)
    = Raise (ValueError "substring not found") /\
  snd (to_evidence (ext := sample_ext) (JStr "42") e s)
    = add_logs [(ERROR, CannotConvertBlock (OtherBlock "JsonBlock"))] s.
Proof.
  intros s e.
  destruct (to_evidence_outcome (ext := sample_ext) (JStr "42") e s)
    as [_ Hraise].
  split; [reflexivity | split; [exact (Hraise _ eq_refl) | reflexivity]].
Defined.
